(** * task_manager.py: a shallow embedding of the TaskManager module

    The development follows [src/task_manager.py]:

    - [Py]    the Python values the module handles (JSON data, ordered
              dicts with string keys, [str.replace], [str.join]);
    - [Json]  the text written by [json.dump] and read back by
              [json.load], for the data of [Py];
    - [TM]    [save_to_file], [convert_langchain_tools], the
              [TaskManager] fields, [_make_tools_str], [_load_persist],
              [_save_persist] and [__init__], over a world made of a file
              system and the lines passed to [print]/[output_func];
    - [Loop]  the task loop ([run] and its steps), which the source file
              does not contain and which is modelled from the
              specification.

    Numbers are Python [int]s (unbounded; the interpreter's limits on the
    digits of an integer and on the depth of recursion are not modelled),
    strings are sequences of code points below 256.  Floating-point
    numbers are outside the model: a document with a fraction or an
    exponent is not loaded by [json_loads]. *)

From Stdlib Require Import ZArith Ascii String List Lia Bool.
From Stdlib Require Import Decimal DecimalString DecimalZ.
From stdpp Require Import base option list strings gmap.

(* ===================================================================== *)
(** * Python values *)
(* ===================================================================== *)

Module Py.

(** The values [json.dump] accepts and [json.load] returns: [None],
    [bool], [int], [str], [list] and [dict] with [str] keys.  A dict keeps
    its insertion order, so it is a list of pairs; Python keeps its keys
    pairwise different ([wf_json] below). *)
#[local] Unset Elimination Schemes.
Inductive json : Type :=
| JNull
| JBool (b : bool)
| JInt (n : Z)
| JStr (s : string)
| JList (l : list json)
| JDict (d : list (string * json)).
#[local] Set Elimination Schemes.

Abbreviation dict := (list (string * json)).

(** [d.get(k)] *)
Fixpoint dict_get (k : string) (d : dict) : option json :=
  match d with
  | [] => None
  | (k', v) :: d' => if String.eqb k k' then Some v else dict_get k d'
  end.

(** [d.get(k, default)] *)
Definition get (d : dict) (k : string) (default : json) : json :=
  match dict_get k d with
  | Some v => v
  | None => default
  end.

(** [k in d] *)
Definition dict_mem (k : string) (d : dict) : bool :=
  match dict_get k d with Some _ => true | None => false end.

(** [d[k] = v]: an existing key keeps its position, a new one goes last. *)
Fixpoint dict_set (k : string) (v : json) (d : dict) : dict :=
  match d with
  | [] => [(k, v)]
  | (k', v') :: d' =>
      if String.eqb k k' then (k, v) :: d' else (k', v') :: dict_set k v d'
  end.

(** [dict(pairs)] *)
Definition dict_of_pairs (ps : list (string * json)) : dict :=
  fold_left (fun d kv => dict_set (fst kv) (snd kv) d) ps [].

Definition keys (d : dict) : list string := map fst d.

(** Truth value of an object, as [or] and [if] test it. *)
Definition truthy (v : json) : bool :=
  match v with
  | JNull => false
  | JBool b => b
  | JInt n => negb (Z.eqb n 0)
  | JStr s => negb (String.eqb s "")
  | JList l => match l with [] => false | _ => true end
  | JDict d => match d with [] => false | _ => true end
  end.

(** No dict of the value holds a key twice. *)
Fixpoint wf_json (v : json) : Prop :=
  match v with
  | JList l => (fix all (l : list json) : Prop :=
                  match l with [] => True | x :: l' => wf_json x /\ all l' end) l
  | JDict d => NoDup (map fst d) /\
               (fix all (d : dict) : Prop :=
                  match d with [] => True | kv :: d' => wf_json (snd kv) /\ all d' end) d
  | _ => True
  end.

(** [s.replace(old, new)] for one-character [old] and [new]. *)
Fixpoint replace (old new : ascii) (s : string) : string :=
  match s with
  | EmptyString => EmptyString
  | String c s' => String (if Ascii.eqb c old then new else c) (replace old new s')
  end.

(** [sep.join(parts)] *)
Fixpoint join (sep : string) (parts : list string) : string :=
  match parts with
  | [] => ""
  | [p] => p
  | p :: ps => p +:+ sep +:+ join sep ps
  end.

End Py.

Export Py.

(* ===================================================================== *)
(** * The json module: [dump] and [load] *)
(* ===================================================================== *)

Module Json.

Definition dquote : ascii := "034"%char.
Definition backslash : ascii := "092"%char.

Definition hex_digit (n : N) : ascii :=
  if (n <? 10)%N then ascii_of_N (48 + n) else ascii_of_N (87 + n).

(** [ESCAPE_DCT] and the [\uXXXX] fallback of [py_encode_basestring_ascii]:
    the printable ASCII characters other than the quote and the backslash
    stand for themselves. *)
Definition escape_char (c : ascii) : string :=
  let n := N_of_ascii c in
  if Ascii.eqb c dquote then String backslash (String dquote "")
  else if Ascii.eqb c backslash then String backslash (String backslash "")
  else if (n =? 8)%N then String backslash "b"
  else if (n =? 12)%N then String backslash "f"
  else if (n =? 10)%N then String backslash "n"
  else if (n =? 13)%N then String backslash "r"
  else if (n =? 9)%N then String backslash "t"
  else if ((32 <=? n) && (n <=? 126))%N then String c ""
  else String backslash
         (String "u" (String "0" (String "0"
           (String (hex_digit (n / 16)) (String (hex_digit (n mod 16)) ""))))).

Fixpoint escape (s : string) : string :=
  match s with
  | EmptyString => String dquote ""
  | String c s' => escape_char c +:+ escape s'
  end.

(** A [str] between double quotes. *)
Definition encode_str (s : string) : string := String dquote (escape s).

(** [int.__repr__] *)
Definition encode_int (n : Z) : string :=
  match Z.to_int n with
  | Pos u => NilEmpty.string_of_uint u
  | Neg u => String "-" (NilEmpty.string_of_uint u)
  end.

(** [json.dumps(v)] with the default separators [", "] and [": "]. *)
Fixpoint json_dumps (v : json) : string :=
  match v with
  | JNull => "null"
  | JBool true => "true"
  | JBool false => "false"
  | JInt n => encode_int n
  | JStr s => encode_str s
  | JList l =>
      String "[" match l with
      | [] => "]"
      | x :: l' =>
          json_dumps x +:+
          (fix more (l : list json) : string :=
             match l with
             | [] => "]"
             | y :: l'' => ", " +:+ json_dumps y +:+ more l''
             end) l'
      end
  | JDict d =>
      String "{" match d with
      | [] => "}"
      | (k, x) :: d' =>
          encode_str k +:+ ": " +:+ json_dumps x +:+
          (fix more (d : dict) : string :=
             match d with
             | [] => "}"
             | (k', y) :: d'' =>
                 ", " +:+ encode_str k' +:+ ": " +:+ json_dumps y +:+ more d''
             end) d'
      end
  end.

(** ** Decoding *)

Definition is_ws (c : ascii) : bool :=
  let n := N_of_ascii c in
  ((n =? 32) || (n =? 9) || (n =? 10) || (n =? 13))%N.

Fixpoint skip_ws (s : string) : string :=
  match s with
  | String c s' => if is_ws c then skip_ws s' else s
  | EmptyString => s
  end.

Definition hex_val (c : ascii) : option N :=
  let n := N_of_ascii c in
  if ((48 <=? n) && (n <=? 57))%N then Some (n - 48)%N
  else if ((97 <=? n) && (n <=? 102))%N then Some (n - 87)%N
  else if ((65 <=? n) && (n <=? 70))%N then Some (n - 55)%N
  else None.

(** The [BACKSLASH] table of the decoder. *)
Definition unescape (e : ascii) : option ascii :=
  if Ascii.eqb e dquote then Some dquote
  else if Ascii.eqb e backslash then Some backslash
  else if Ascii.eqb e "/" then Some "/"%char
  else if Ascii.eqb e "b" then Some "008"%char
  else if Ascii.eqb e "f" then Some "012"%char
  else if Ascii.eqb e "n" then Some "010"%char
  else if Ascii.eqb e "r" then Some "013"%char
  else if Ascii.eqb e "t" then Some "009"%char
  else None.

(** [scanstring], called after the opening quote, in strict mode: a raw
    control character ends the scan with an error.  A [\uXXXX] escape of a
    code point from 256 on is outside the model. *)
Fixpoint scanstring (s : string) : option (string * string) :=
  match s with
  | EmptyString => None
  | String c r =>
      if Ascii.eqb c dquote then Some (EmptyString, r)
      else if Ascii.eqb c backslash then
        match r with
        | String e r1 =>
            if Ascii.eqb e "u" then
              match r1 with
              | String h1 (String h2 (String h3 (String h4 r2))) =>
                  match hex_val h1, hex_val h2, hex_val h3, hex_val h4 with
                  | Some a, Some b, Some c', Some d =>
                      if ((a =? 0) && (b =? 0))%N then
                        match scanstring r2 with
                        | Some (t, rest) =>
                            Some (String (ascii_of_N (16 * c' + d)) t, rest)
                        | None => None
                        end
                      else None
                  | _, _, _, _ => None
                  end
              | _ => None
              end
            else
              match unescape e with
              | Some c' =>
                  match scanstring r1 with
                  | Some (t, rest) => Some (String c' t, rest)
                  | None => None
                  end
              | None => None
              end
        | EmptyString => None
        end
      else if (N_of_ascii c <? 32)%N then None
      else
        match scanstring r with
        | Some (t, rest) => Some (String c t, rest)
        | None => None
        end
  end.

Definition digit_val (c : ascii) : option (uint -> uint) :=
  match N_of_ascii c with
  | 48%N => Some D0 | 49%N => Some D1 | 50%N => Some D2 | 51%N => Some D3
  | 52%N => Some D4 | 53%N => Some D5 | 54%N => Some D6 | 55%N => Some D7
  | 56%N => Some D8 | 57%N => Some D9
  | _ => None
  end.

(** The longest run of decimal digits at the head of [s]. *)
Fixpoint scan_digits (s : string) : uint * string :=
  match s with
  | String c r =>
      match digit_val c with
      | Some d => let '(u, rest) := scan_digits r in (d u, rest)
      | None => (Nil, s)
      end
  | EmptyString => (Nil, s)
  end.

(** After the integer part: a fraction or an exponent makes a float. *)
Definition float_follows (s : string) : bool :=
  match s with
  | String c _ => Ascii.eqb c "." || Ascii.eqb c "e" || Ascii.eqb c "E"
  | EmptyString => false
  end.

(** [NUMBER_RE]: [0], or a non-zero digit and more digits. *)
Definition scan_uint (s : string) : option (uint * string) :=
  match s with
  | String c r =>
      if Ascii.eqb c "0" then Some (D0 Nil, r)
      else match digit_val c with
           | Some d => let '(u, rest) := scan_digits r in Some (d u, rest)
           | None => None
           end
  | EmptyString => None
  end.

Definition scan_number (s : string) : option (json * string) :=
  match s with
  | String c r =>
      if Ascii.eqb c "-" then
        match scan_uint r with
        | Some (u, rest) =>
            if float_follows rest then None else Some (JInt (Z.of_int (Neg u)), rest)
        | None => None
        end
      else
        match scan_uint s with
        | Some (u, rest) =>
            if float_follows rest then None else Some (JInt (Z.of_int (Pos u)), rest)
        | None => None
        end
  | EmptyString => None
  end.

(** [s] starts with [p]: the rest of [s]. *)
Fixpoint strip_prefix (p s : string) : option string :=
  match p, s with
  | EmptyString, _ => Some s
  | String a p', String b s' => if Ascii.eqb a b then strip_prefix p' s' else None
  | String _ _, EmptyString => None
  end.

Section Scanner.
(** [scan_once], the decoder of one value at the head of the text. *)
Variable scan_once : string -> option (json * string).

(** [JSONArray], after the first value's position is reached: values
    separated by commas up to the closing bracket. *)
Fixpoint scan_items (k : nat) (s : string) : option (list json * string) :=
  match k with
  | O => None
  | S k' =>
      match scan_once s with
      | Some (v, r) =>
          match skip_ws r with
          | String c r' =>
              if Ascii.eqb c "]" then Some ([v], r')
              else if Ascii.eqb c "," then
                match scan_items k' (skip_ws r') with
                | Some (vs, rest) => Some (v :: vs, rest)
                | None => None
                end
              else None
          | EmptyString => None
          end
      | None => None
      end
  end.

(** [JSONObject]: ["key" : value] pairs separated by commas up to the
    closing brace. *)
Fixpoint scan_pairs (k : nat) (s : string) : option (list (string * json) * string) :=
  match k with
  | O => None
  | S k' =>
      match s with
      | String q s1 =>
          if Ascii.eqb q dquote then
            match scanstring s1 with
            | Some (key, r) =>
                match skip_ws r with
                | String c r1 =>
                    if Ascii.eqb c ":" then
                      match scan_once (skip_ws r1) with
                      | Some (v, r2) =>
                          match skip_ws r2 with
                          | String c' r3 =>
                              if Ascii.eqb c' "}" then Some ([(key, v)], r3)
                              else if Ascii.eqb c' "," then
                                match scan_pairs k' (skip_ws r3) with
                                | Some (ps, rest) => Some ((key, v) :: ps, rest)
                                | None => None
                                end
                              else None
                          | EmptyString => None
                          end
                      | None => None
                      end
                    else None
                | EmptyString => None
                end
            | None => None
            end
          else None
      | EmptyString => None
      end
  end.
End Scanner.

(** [scan_once] with a bound [n] on the nesting and on the number of
    members read at each level. *)
Fixpoint scan (n : nat) (s : string) : option (json * string) :=
  match n with
  | O => None
  | S n' =>
      match s with
      | String c r =>
          if Ascii.eqb c dquote then
            match scanstring r with
            | Some (str, rest) => Some (JStr str, rest)
            | None => None
            end
          else if Ascii.eqb c "{" then
            match skip_ws r with
            | String c' r' =>
                if Ascii.eqb c' "}" then Some (JDict [], r')
                else match scan_pairs (scan n') n' (String c' r') with
                     | Some (ps, rest) => Some (JDict (dict_of_pairs ps), rest)
                     | None => None
                     end
            | EmptyString => None
            end
          else if Ascii.eqb c "[" then
            match skip_ws r with
            | String c' r' =>
                if Ascii.eqb c' "]" then Some (JList [], r')
                else match scan_items (scan n') n' (String c' r') with
                     | Some (vs, rest) => Some (JList vs, rest)
                     | None => None
                     end
            | EmptyString => None
            end
          else if Ascii.eqb c "n" then
            match strip_prefix "ull" r with
            | Some rest => Some (JNull, rest) | None => None
            end
          else if Ascii.eqb c "t" then
            match strip_prefix "rue" r with
            | Some rest => Some (JBool true, rest) | None => None
            end
          else if Ascii.eqb c "f" then
            match strip_prefix "alse" r with
            | Some rest => Some (JBool false, rest) | None => None
            end
          else scan_number s
      | EmptyString => None
      end
  end.

(** [json.loads(s)]: one value between optional white space, and nothing
    after it.  [None] is a [JSONDecodeError] (or a document outside the
    model).  No value needs more steps than the text has characters. *)
Definition json_loads (s : string) : option json :=
  let s' := skip_ws s in
  match scan (String.length s') s' with
  | Some (v, rest) =>
      match skip_ws rest with
      | EmptyString => Some v
      | String _ _ => None
      end
  | None => None
  end.

(** ** Notions used to state facts about the text *)

(** The text after the first member of a list, and of a dict. *)
Fixpoint more_items (l : list json) : string :=
  match l with
  | [] => "]"
  | y :: l' => ", " +:+ json_dumps y +:+ more_items l'
  end.

Fixpoint more_pairs (d : dict) : string :=
  match d with
  | [] => "}"
  | (k, y) :: d' => ", " +:+ encode_str k +:+ ": " +:+ json_dumps y +:+ more_pairs d'
  end.

(** The number of values in a value. *)
Fixpoint json_size (v : json) : nat :=
  match v with
  | JList l =>
      S ((fix sum (l : list json) : nat :=
            match l with [] => 0 | x :: l' => json_size x + sum l' end) l)
  | JDict d =>
      S ((fix sum (d : dict) : nat :=
            match d with [] => 0 | kv :: d' => json_size (snd kv) + sum d' end) d)
  | _ => 1
  end.

(** What may follow a value in a document produced by [json_dumps]. *)
Definition delimited (rest : string) : bool :=
  match rest with
  | EmptyString => true
  | String c _ => Ascii.eqb c "," || Ascii.eqb c "]" || Ascii.eqb c "}"
  end.

(** The characters a number starts with. *)
Definition starts_number (c : ascii) : bool :=
  Ascii.eqb c "-" || match digit_val c with Some _ => true | None => false end.

(** A dumped value starts with a character that is neither white space
    nor a closing bracket. *)
Definition opens (s : string) : Prop :=
  exists c r, s = String c r /\ is_ws c = false /\
              Ascii.eqb c "]" = false /\ Ascii.eqb c "}" = false.

(** The property proved of every value: the scanner reads it back, with
    the text that follows untouched. *)
Definition reads_back (v : json) : Prop :=
  forall n rest,
    json_size v <= n -> delimited rest = true -> wf_json v ->
    scan n (json_dumps v +:+ rest) = Some (v, rest).

End Json.

Export Json.


(* ===================================================================== *)
(** * task_manager.py *)
(* ===================================================================== *)

Module TM.

(** ** The world outside the interpreter

    A file system: the text of each file, as [open(path).read()] gives
    it, and for each path what [open(path, 'w')] raises, if anything (the
    parent directory is missing, the path is a directory, the permission
    is denied).  The program writes files but does not change what can be
    opened.  The calls made to [print], to the [output_func] and to the
    [complete_func] callbacks are recorded in order. *)
Inductive event : Type :=
| Stdout (line : string)
| Output (line : string)
| Complete (goal : string) (result : json).

(** The exceptions of the interpreter that the code can meet, and
    [MalformedResponse], the specification's error for a response that no
    repair made parseable. *)
Inductive exn : Type :=
| TypeError
| FileNotFoundError
| IsADirectoryError
| PermissionError
| JSONDecodeError
| AttributeError
| MalformedResponse.

Record filesystem : Type := Filesystem {
  content : gmap string string;
  denied : string -> option exn
}.

(** [fs !! path] is the text of the file at [path]; [<[path := text]> fs]
    is [fs] after [text] was written at [path]; in [∅] and in
    [{[path := text]}] every path can be opened for writing. *)
#[global] Instance filesystem_lookup : Lookup string string filesystem :=
  fun path fs => content fs !! path.

#[global] Instance filesystem_insert : Insert string string filesystem :=
  fun path text fs =>
    {| content := <[path := text]> (content fs); denied := denied fs |}.

#[global] Instance filesystem_empty : Empty filesystem :=
  {| content := ∅; denied := fun _ => None |}.

#[global] Instance filesystem_singleton : SingletonM string string filesystem :=
  fun path text => {| content := {[ path := text ]}; denied := fun _ => None |}.

Record world : Type := World {
  files : filesystem;
  trace : list event
}.

(** A computation ends normally or raises; the world is kept in both
    cases. *)
Inductive result (A : Type) : Type :=
| Ok (a : A) (w : world)
| Raise (e : exn) (w : world).
Arguments Ok {A} a w.
Arguments Raise {A} e w.

Definition M (A : Type) : Type := world -> result A.

Definition ret {A} (a : A) : M A := fun w => Ok a w.
Definition raise {A} (e : exn) : M A := fun w => Raise e w.
Definition bind {A B} (m : M A) (k : A -> M B) : M B :=
  fun w => match m w with
           | Ok a w' => k a w'
           | Raise e w' => Raise e w'
           end.

Notation "x <- m ;; k" := (bind m (fun x => k))
  (at level 100, m at next level, right associativity).
Notation "m ;;; k" := (bind m (fun _ => k))
  (at level 100, right associativity).

Definition emit (e : event) : M unit :=
  fun w => Ok tt {| files := files w; trace := trace w ++ [e] |}.

(** [print(line)] *)
Definition print (line : string) : M unit := emit (Stdout line).

(** [os.path.exists(path)] *)
Definition path_exists (path : string) : M bool :=
  fun w => Ok (bool_decide (is_Some (files w !! path))) w.

(** [with open(path, 'r') as f: json.load(f)] *)
Definition read_json (path : string) : M json :=
  fun w => match files w !! path with
           | None => Raise FileNotFoundError w
           | Some text =>
               match json_loads text with
               | Some v => Ok v w
               | None => Raise JSONDecodeError w
               end
           end.

(** [with open(path, 'w') as f: json.dump(v, f)]: nothing is written when
    [open] raises, which it does for the empty path in every world. *)
Definition write_json (path : string) (v : json) : M unit :=
  fun w => if String.eqb path "" then Raise FileNotFoundError w
           else match denied (files w) path with
                | Some e => Raise e w
                | None =>
                    Ok tt {| files := <[path := json_dumps v]> (files w);
                             trace := trace w |}
                end.

(** ** Module-level functions *)

(** [save_to_file(goal, result)] *)
Definition save_to_file (goal : string) (result : json) : M unit :=
  let fn := replace " " "_" goal +:+ ".result.txt" in
  print ("saving final result to " +:+ fn) ;;;
  write_json fn result.

(** A langchain tool carries (at least) a name and a description. *)
Record BaseTool : Type := { name : string; description : string }.

(** An element of the list given to [convert_langchain_tools]: a
    [BaseTool] instance or some other object. *)
Inductive pyobj : Type :=
| Tool (t : BaseTool)
| Other (v : json).

(** A tool descriptor: a dict with [str] keys and [str] values, in
    insertion order. *)
Abbreviation descriptor := (list (string * string)).

(** [convert_langchain_tools(tools)] *)
Fixpoint convert_langchain_tools (tools : list pyobj) : list descriptor :=
  match tools with
  | [] => []
  | Tool t :: rest =>
      [("name", name t); ("description", description t)]
        :: convert_langchain_tools rest
  | Other _ :: rest => convert_langchain_tools rest
  end.

(** ** class TaskManager *)

Record TaskManager : Type := {
  final_goal : string;
  tools : list descriptor;
  verbose : bool;
  allow_repeat_tasks : bool;
  completed_tasks : json;
  persist : option string;
  confirm_tool : bool;
  current_tasks : json;
  final_result : json;
  stored_info : json;
  tools_str : string;
  goal_completed : bool
}.

(** [self.output_func(line)] *)
Definition output_func (line : string) : M unit := emit (Output line).

(** [TaskManager._make_tools_str(tools)] *)
Definition _make_tools_str (tools : list descriptor) : string :=
  join ("-----" +:+ String "010"%char "")
       (map (fun tool : descriptor =>
               join (String "010"%char "")
                    (map (fun kv : string * string => fst kv +:+ ": " +:+ snd kv) tool))
            tools).

(** The four assignments that end [_load_persist]. *)
Definition set_loaded (self : TaskManager) (saved : dict) : TaskManager :=
  {| final_goal := final_goal self;
     tools := tools self;
     verbose := verbose self;
     allow_repeat_tasks := allow_repeat_tasks self;
     completed_tasks := get saved "completed_tasks" (JDict []);
     persist := persist self;
     confirm_tool := confirm_tool self;
     current_tasks := get saved "current_tasks" (JList []);
     final_result := get saved "final_result" (JDict []);
     stored_info := get saved "stored_info" (JDict []);
     tools_str := tools_str self;
     goal_completed := goal_completed self |}.

(** [TaskManager._load_persist(self)].  [saved.get] exists on a dict
    only. *)
Definition _load_persist (self : TaskManager) : M TaskManager :=
  match persist self with
  | None => raise TypeError
  | Some path =>
      found <- path_exists path ;;
      saved <- (if found : bool then
                  saved <- read_json path ;;
                  output_func ("[system] Loaded stored info from: " +:+ path) ;;;
                  ret saved
                else
                  output_func ("[system] Could not read " +:+ path +:+
                               ", assuming new file. It will be created later.") ;;;
                  ret (JDict [])) ;;
      match saved with
      | JDict d => ret (set_loaded self d)
      | _ => raise AttributeError
      end
  end.

(** The dict [_save_persist] dumps. *)
Definition saved_state (self : TaskManager) : json :=
  JDict [("stored_info", stored_info self);
         ("final_result", final_result self);
         ("current_tasks", current_tasks self);
         ("completed_tasks", completed_tasks self)].

(** [TaskManager._save_persist(self)] *)
Definition _save_persist (self : TaskManager) : M unit :=
  match persist self with
  | None => raise TypeError
  | Some path =>
      write_json path (saved_state self) ;;;
      output_func ("saved stored info to: " +:+ path)
  end.

(** [a or b] *)
Definition py_or (a b : json) : json := if truthy a then a else b.

(** [if persist:] *)
Definition persist_set (p : option string) : bool :=
  match p with
  | Some path => negb (String.eqb path "")
  | None => false
  end.

(** [TaskManager.__init__].  The callables ([llm], [output_func],
    [complete_func], [input_func]) are the world's; [None] is [JNull]. *)
Definition __init__ (goal : string) (tools : list descriptor)
    (verbose : bool) (current_tasks final_result : json)
    (allow_repeat_tasks : bool) (completed_tasks : json)
    (persist : option string) (confirm_tool : bool) : M TaskManager :=
  let self :=
    {| final_goal := goal;
       tools := tools;
       verbose := verbose;
       allow_repeat_tasks := allow_repeat_tasks;
       completed_tasks := py_or completed_tasks (JDict []);
       persist := persist;
       confirm_tool := confirm_tool;
       current_tasks := py_or current_tasks (JList []);
       final_result := py_or final_result (JDict []);
       stored_info := JDict [];
       tools_str := "";
       goal_completed := false |} in
  self <- (if persist_set persist then _load_persist self else ret self) ;;
  ret {| final_goal := final_goal self;
         tools := TM.tools self;
         verbose := TM.verbose self;
         allow_repeat_tasks := TM.allow_repeat_tasks self;
         completed_tasks := TM.completed_tasks self;
         persist := TM.persist self;
         confirm_tool := TM.confirm_tool self;
         current_tasks := TM.current_tasks self;
         final_result := TM.final_result self;
         stored_info := TM.stored_info self;
         tools_str := _make_tools_str (TM.tools self);
         goal_completed := goal_completed self |}.

End TM.

(* ===================================================================== *)
(** * The task loop *)
(* ===================================================================== *)

(** [src/task_manager.py] ends with [__init__]: it has the prompt
    templates ([CREATE_PROMPT], [TASK_PROMPT], [REFINE_PROMPT],
    [FIX_JSON_PROMPT]) but none of the functions that send them.  The
    loop below follows the operations of the specification (section 4.1);
    the keys read from a response ("current_tasks", "final_result",
    "stored_info", "thoughts", "goal_complete") are those the templates
    of the source ask the model for.  checkCompletion, which the
    specification calls optional and which run() does not mention, is
    not part of the loop. *)
Module Loop.
Import TM.

(** Modelled from the spec: the four kinds of prompt the manager sends to
    the language model (create tasks, execute task, refine tasks, repair
    malformed JSON), each with the data the specification says it carries;
    the source file has the templates but not the functions that fill
    them.  The repair prompt carries the malformed text; the worked
    example is a constant and the parser's message is determined by the
    text. *)
Inductive prompt : Type :=
| CreatePrompt (goal tools_str : string)
| TaskPrompt (goal : string) (remaining : list json)
             (stored_info final_result : json) (task : string)
| RefinePrompt (task result : string)
| RepairPrompt (bad : string).

Section WithModel.

(** The language model: given a prompt it returns a completion, and may
    change its own state.  Both are the caller's. *)
Variable LLM : Type.
Variable llm_call : LLM -> prompt -> string * LLM.

(** The bound on the repair prompts sent for one response. *)
Variable max_retries : nat.

(** Modelled from the spec: the running manager, which is the
    [TaskManager] object, the world, the language model and the
    transcript of the prompts sent so far, each with the completion
    received (missing from the source with the loop). *)
Record state : Type := State {
  self : TaskManager;
  env : world;
  model : LLM;
  asked : list (prompt * string)
}.

(** The state with another manager, and with another world. *)
Definition with_self (st : state) (tm : TaskManager) : state :=
  {| self := tm; env := env st; model := model st; asked := asked st |}.

Definition with_env (st : state) (w : world) : state :=
  {| self := self st; env := w; model := model st; asked := asked st |}.

(** Modelled from the spec: a step of the loop continues, or ends the run
    with a fatal error that is propagated to the caller. *)
Inductive step (A : Type) : Type :=
| Next (a : A) (st : state)
| Fatal (e : exn) (st : state).
Arguments Next {A} a st.
Arguments Fatal {A} e st.

(** Modelled from the spec: the model call interface, given a prompt
    return a text completion (the call itself is missing from the
    source). *)
Definition ask (p : prompt) (st : state) : string * state :=
  let '(text, m) := llm_call (model st) p in
  (text, {| self := self st; env := env st; model := m;
            asked := asked st ++ [(p, text)] |}).

(** Modelled from the spec: repairJson, missing from the source.  The
    malformed text is sent back with the repair prompt, at most [k]
    times; the first answer that parses is the result. *)
Fixpoint repairJson (k : nat) (bad : string) (st : state) : option json * state :=
  match k with
  | O => (None, st)
  | S k' =>
      let '(text, st') := ask (RepairPrompt bad) st in
      match json_loads text with
      | Some j => (Some j, st')
      | None => repairJson k' text st'
      end
  end.

(** Modelled from the spec: parsing a response of the create or refine
    step, with the repair fallback (missing from the source). *)
Definition parse_response (text : string) (st : state) : option json * state :=
  match json_loads text with
  | Some j => (Some j, st)
  | None => repairJson max_retries text st
  end.

(** Modelled from the spec: the value a parsed response returns for a
    key, if it is an object with that key. *)
Definition field (j : json) (k : string) : option json :=
  match j with
  | JDict d => dict_get k d
  | _ => None
  end.

(** [self.current_tasks = tasks] *)
Definition set_tasks (tm : TaskManager) (tasks : json) : TaskManager :=
  {| final_goal := final_goal tm; tools := tools tm; verbose := verbose tm;
     allow_repeat_tasks := allow_repeat_tasks tm;
     completed_tasks := completed_tasks tm; persist := persist tm;
     confirm_tool := confirm_tool tm; current_tasks := tasks;
     final_result := final_result tm; stored_info := stored_info tm;
     tools_str := tools_str tm; goal_completed := goal_completed tm |}.

(** Modelled from the spec: the create step populates CurrentTasks from
    the parsed response (missing from the source). *)
Definition apply_create (j : json) (tm : TaskManager) : TaskManager :=
  match field j "current_tasks" with
  | Some tasks => set_tasks tm tasks
  | None => tm
  end.

(** Modelled from the spec: the refine step applies all returned fields,
    overwriting the corresponding in-memory state, and records
    (task, result) into CompletedTasks (missing from the source). *)
Definition apply_refine (j : json) (task result : string) (done : dict)
    (tm : TaskManager) : TaskManager :=
  {| final_goal := final_goal tm; tools := tools tm; verbose := verbose tm;
     allow_repeat_tasks := allow_repeat_tasks tm;
     completed_tasks := JDict (dict_set task (JStr result) done);
     persist := persist tm; confirm_tool := confirm_tool tm;
     current_tasks := default (current_tasks tm) (field j "current_tasks");
     final_result := default (final_result tm) (field j "final_result");
     stored_info := default (stored_info tm) (field j "stored_info");
     tools_str := tools_str tm;
     goal_completed :=
       match field j "goal_complete" with
       | Some b => truthy b
       | None => goal_completed tm
       end |}.

(** Modelled from the spec: createInitialTasks, missing from the source.
    It sends a prompt combining the goal and the tool listing, parses
    the response, on parse failure invokes the repair step, and
    populates CurrentTasks. *)
Definition createInitialTasks (st : state) : step unit :=
  let '(text, st1) :=
    ask (CreatePrompt (final_goal (self st)) (tools_str (self st))) st in
  match parse_response text st1 with
  | (Some j, st2) => Next tt (with_self st2 (apply_create j (self st2)))
  | (None, st2) => Fatal MalformedResponse st2
  end.

(** Modelled from the spec: what became of the task popped off the
    queue, skipped under the repeat-task policy or executed with the
    model's textual response as its result. *)
Inductive taken : Type :=
| Skipped (task : string)
| Executed (task result : string).

(** Modelled from the spec: the task is already present as a key in
    CompletedTasks. *)
Definition already_completed (task : string) (tm : TaskManager) : bool :=
  match completed_tasks tm with
  | JDict d => dict_mem task d
  | _ => false
  end.

(** Modelled from the spec: executeNextTask, missing from the source.
    It pops the first task off CurrentTasks; under the repeat-task
    policy a task already present as a key in CompletedTasks is skipped;
    otherwise the task prompt (goal, remaining tasks, context from
    StoredInfo and FinalResult) is sent and the response is the task's
    result. *)
Definition executeNextTask (st : state) : step taken :=
  match current_tasks (self st) with
  | JList (JStr task :: remaining) =>
      let st1 := with_self st (set_tasks (self st) (JList remaining)) in
      if negb (allow_repeat_tasks (self st)) && already_completed task (self st)
      then Next (Skipped task) st1
      else
        let '(text, st2) :=
          ask (TaskPrompt (final_goal (self st)) remaining
                          (stored_info (self st)) (final_result (self st)) task)
              st1 in
        Next (Executed task text) st2
  | _ => Fatal TypeError st
  end.

(** Modelled from the spec: the optional "thoughts" string of a refine
    response is echoed to the output. *)
Definition echo_thoughts (j : json) (w : world) : world :=
  match field j "thoughts" with
  | Some (JStr s) =>
      match output_func s w with
      | Ok _ w' => w'
      | Raise _ w' => w'
      end
  | _ => w
  end.

(** Modelled from the spec: refine(task, result), missing from the
    source.  It sends the refine prompt, parses the JSON response with
    the repair fallback, and only then overwrites the fields. *)
Definition refine (task result : string) (st : state) : step unit :=
  let '(text, st1) := ask (RefinePrompt task result) st in
  match parse_response text st1 with
  | (Some j, st2) =>
      match completed_tasks (self st2) with
      | JDict done =>
          Next tt {| self := apply_refine j task result done (self st2);
                     env := echo_thoughts j (env st2);
                     model := model st2;
                     asked := asked st2 |}
      | _ => Fatal TypeError st2
      end
  | (None, st2) => Fatal MalformedResponse st2
  end.

(** Modelled from the spec: persist state after each refine if
    configured, with the [_save_persist] of the source. *)
Definition persist_state (st : state) : step unit :=
  if persist_set (persist (self st)) then
    match _save_persist (self st) (env st) with
    | Ok _ w => Next tt (with_env st w)
    | Raise e w => Fatal e (with_env st w)
    end
  else Next tt st.

(** Modelled from the spec: how a run ends.  The callback was invoked, or
    a fatal error was propagated to the caller; [Running] is the run cut
    off by the bound on the iterations. *)
Inductive outcome : Type :=
| Completed (st : state)
| Failed (e : exn) (st : state)
| Running (st : state).

(** Modelled from the spec: the guard of the loop, while not GoalComplete
    and CurrentTasks non-empty. *)
Definition continues (tm : TaskManager) : bool :=
  negb (goal_completed tm) && truthy (current_tasks tm).

(** Modelled from the spec: the completion callback is invoked with
    (goal, FinalResult). *)
Definition complete (st : state) : state :=
  with_env st {| files := files (env st);
                 trace := trace (env st) ++
                          [Complete (final_goal (self st)) (final_result (self st))] |}.

(** Modelled from the spec: the loop of run(), missing from the source:
    executeNextTask(), refine(), persist state after each refine if
    configured; on GoalComplete or exhausted tasks, invoke the
    completion callback with (goal, FinalResult).  [fuel] bounds the
    number of iterations. *)
Fixpoint loop (fuel : nat) (st : state) : outcome :=
  if continues (self st) then
    match fuel with
    | O => Running st
    | S fuel' =>
        match executeNextTask st with
        | Fatal e st1 => Failed e st1
        | Next (Skipped _) st1 => loop fuel' st1
        | Next (Executed task result) st1 =>
            match refine task result st1 with
            | Fatal e st2 => Failed e st2
            | Next _ st2 =>
                match persist_state st2 with
                | Fatal e st3 => Failed e st3
                | Next _ st3 => loop fuel' st3
                end
            end
        end
    end
  else Completed (complete st).

(** Modelled from the spec: run(), missing from the source: if
    CurrentTasks is empty, call createInitialTasks(); then loop.  Given
    zero tasks and GoalComplete already true at start, run() terminates
    immediately: the initial tasks are created for a goal that is not
    complete yet. *)
Definition run (fuel : nat) (st : state) : outcome :=
  if truthy (current_tasks (self st)) || goal_completed (self st) then loop fuel st
  else
    match createInitialTasks st with
    | Fatal e st1 => Failed e st1
    | Next _ st1 => loop fuel st1
    end.

(** The state a run ends in. *)
Definition final (o : outcome) : state :=
  match o with
  | Completed st | Failed _ st | Running st => st
  end.

End WithModel.

Arguments State {LLM} self env model asked.
Arguments self {LLM} s.
Arguments env {LLM} s.
Arguments model {LLM} s.
Arguments asked {LLM} s.
Arguments with_self {LLM} st tm.
Arguments with_env {LLM} st w.
Arguments Next {LLM A} a st.
Arguments Fatal {LLM A} e st.
Arguments Completed {LLM} st.
Arguments Failed {LLM} e st.
Arguments Running {LLM} st.
Arguments ask {LLM} llm_call p st.
Arguments repairJson {LLM} llm_call k bad st.
Arguments parse_response {LLM} llm_call max_retries text st.
Arguments createInitialTasks {LLM} llm_call max_retries st.
Arguments executeNextTask {LLM} llm_call st.
Arguments refine {LLM} llm_call max_retries task result st.
Arguments persist_state {LLM} st.
Arguments complete {LLM} st.
Arguments loop {LLM} llm_call max_retries fuel st.
Arguments run {LLM} llm_call max_retries fuel st.
Arguments final {LLM} o.

(** The state a step ends in. *)
Definition after {LLM A} (r : step LLM A) : state LLM :=
  match r with
  | Next _ st | Fatal _ st => st
  end.

(** The keys of CompletedTasks. *)
Definition completed_keys (tm : TaskManager) : list string :=
  match completed_tasks tm with
  | JDict d => keys d
  | _ => []
  end.

(** The tasks sent to the model for execution, in a transcript. *)
Fixpoint executed (log : list (prompt * string)) : list string :=
  match log with
  | [] => []
  | (TaskPrompt _ _ _ _ task, _) :: log' => task :: executed log'
  | _ :: log' => executed log'
  end.

(** [log] is a chain of repairs of [bad]: every prompt in it is the
    repair prompt for the text received just before, which did not
    parse. *)
Fixpoint repairs_of (bad : string) (log : list (prompt * string)) : Prop :=
  match log with
  | [] => True
  | (p, text) :: log' =>
      p = RepairPrompt bad /\ json_loads bad = None /\ repairs_of text log'
  end.

(** The last text received: [first], or the last answer of [log]. *)
Fixpoint last_text (first : string) (log : list (prompt * string)) : string :=
  match log with
  | [] => first
  | (_, text) :: log' => last_text text log'
  end.


End Loop.

(* ===================================================================== *)
(** * Sample managers, worlds and language models *)
(* ===================================================================== *)

Module Examples.
Import TM Loop.

Definition no_files : world := {| files := ∅; trace := [] |}.

(** A manager that persists to [state.json]. *)
Definition colors_manager : TaskManager :=
  {| final_goal := "list three colors";
     tools := [[("name", "search"); ("description", "web search")]];
     verbose := true;
     allow_repeat_tasks := false;
     completed_tasks := JDict [("list three colors", JStr "red, green, blue")];
     persist := Some "state.json";
     confirm_tool := false;
     current_tasks := JList [JStr "show results and terminate"];
     final_result := JDict [("colors", JList [JStr "red"; JStr "green"; JStr "blue"])];
     stored_info := JDict [("count", JInt 3); ("checked", JBool true); ("note", JNull)];
     tools_str := "name: search";
     goal_completed := false |}.

(** A state file holding two of the four keys. *)
Definition partial_state : string :=
  json_dumps (JDict [("current_tasks", JList [JStr "a"]);
                     ("stored_info", JDict [("k", JInt 1)])]).

Definition one_file : world :=
  {| files := {[ "state.json" := partial_state ]}; trace := [] |}.

(** A manager with the given queue, completed tasks and completion flag,
    and no persistence. *)
Definition manager (tasks : list string) (done : dict) (complete : bool) : TaskManager :=
  {| final_goal := "list three colors";
     tools := [];
     verbose := true;
     allow_repeat_tasks := false;
     completed_tasks := JDict done;
     persist := None;
     confirm_tool := false;
     current_tasks := JList (map JStr tasks);
     final_result := JDict [("colors", JList [])];
     stored_info := JDict [];
     tools_str := "";
     goal_completed := complete |}.


(** A model that plans the same task twice, and answers its [n]-th
    prompt; its first plan is malformed and repaired on request. *)
Definition planner (n : nat) (p : prompt) : string * nat :=
  (match p with
   | CreatePrompt _ _ => "current_tasks: ..."
   | RepairPrompt _ =>
       json_dumps (JDict [("current_tasks",
                           JList [JStr "list three colors"; JStr "list three colors";
                                  JStr "show results and terminate"])])
   | TaskPrompt _ _ _ _ task => "did " +:+ task
   | RefinePrompt task _ =>
       json_dumps (JDict [("final_result", JDict [("last", JStr task)]);
                          ("thoughts", JStr "on it");
                          ("goal_complete", JBool false)])
   end, S n).

Definition start {LLM} (tm : TaskManager) (m : LLM) : state LLM :=
  {| self := tm; env := no_files; model := m; asked := [] |}.

End Examples.

(* ===================================================================== *)
(** * Constants of the class, and more samples *)
(* ===================================================================== *)

Module Consts.
Import TM.

(** The text of the [GOOD_JSON_EXAMPLE] literal, where [esc] stands for
    each of its four occurrences of a backslash followed by a quote, and
    [q] for a quote that no backslash precedes. *)
Definition good_json_example (esc : string) : string :=
  let q := String dquote "" in
  "{" +:+ q +:+ "current_tasks" +:+ q +:+ ": [" +:+
  q +:+ "Research Amjad Masad's career and background." +:+ q +:+ ", " +:+
  q +:+ "Create a CSV called " +:+ esc +:+ "career.csv" +:+ esc +:+
  " and write his careers to it." +:+ q +:+ "], " +:+
  q +:+ "stored_info" +:+ q +:+ ": {" +:+ q +:+ "username" +:+ q +:+ ": " +:+
  q +:+ "amasad" +:+ q +:+ "}, " +:+
  q +:+ "thoughts" +:+ q +:+ ": " +:+
  q +:+ "I will research his career and background, and then save the results to "
  +:+ esc +:+ "career.csv" +:+ esc +:+ "." +:+ q +:+ "}".

(** [TaskManager.GOOD_JSON_EXAMPLE]: the literal is not a raw string, so
    Python reads a backslash followed by a quote as a quote. *)
Definition GOOD_JSON_EXAMPLE : string :=
  good_json_example (String dquote "").

(** The same literal with its backslashes kept, as it stands in the
    source file (what a raw string literal would denote). *)
Definition GOOD_JSON_EXAMPLE_as_written : string :=
  good_json_example (String backslash (String dquote "")).

(** The keys [_save_persist] writes and [_load_persist] reads. *)
Definition state_keys : list string :=
  ["stored_info"; "final_result"; "current_tasks"; "completed_tasks"].

(** The file [save_to_file] writes for a goal. *)
Definition result_file (goal : string) : string :=
  replace " " "_" goal +:+ ".result.txt".

(** [isinstance(o, BaseTool)] *)
Definition is_tool (o : pyobj) : bool :=
  match o with
  | Tool _ => true
  | Other _ => false
  end.

(** The two lines [_make_tools_str] renders for a descriptor made of a
    name and a description. *)
Definition tool_lines (t : BaseTool) : string :=
  "name: " +:+ name t +:+ String "010"%char "" +:+
  "description: " +:+ description t.

(** The separator of [_make_tools_str]: five dashes and a newline. *)
Definition tools_sep : string := "-----" +:+ String "010"%char "".

(** The fields [_load_persist] does not assign. *)
Definition same_settings (a b : TaskManager) : Prop :=
  final_goal a = final_goal b /\ tools a = tools b /\ verbose a = verbose b /\
  allow_repeat_tasks a = allow_repeat_tasks b /\ persist a = persist b /\
  confirm_tool a = confirm_tool b /\ tools_str a = tools_str b /\
  goal_completed a = goal_completed b.


(** The world after a computation, however it ended. *)
Definition world_of {A} (r : result A) : world :=
  match r with
  | Ok _ w | Raise _ w => w
  end.

(** At most one line was passed to [output_func] between two traces. *)
Definition at_most_one_output (before after : list event) : Prop :=
  after = before \/ exists line, after = before ++ [Output line].

End Consts.

Module Samples.
Import TM Examples.

(** A state file with a key that [_load_persist] does not read. *)
Definition annotated_state : string :=
  json_dumps (JDict [("comment", JStr "written by hand");
                     ("current_tasks", JList [JStr "a"]);
                     ("stored_info", JDict [("k", JInt 1)])]).

Definition annotated_file : world :=
  {| files := {[ "state.json" := annotated_state ]}; trace := [] |}.

(** A state file that holds a list, and one that holds no JSON. *)
Definition list_file : world :=
  {| files := {[ "state.json" := "[1, 2]" ]}; trace := [] |}.


(** [colors_manager] with the completion flag set and another goal. *)
Definition finished_manager : TaskManager :=
  {| final_goal := "something else";
     tools := [];
     verbose := false;
     allow_repeat_tasks := true;
     completed_tasks := completed_tasks colors_manager;
     persist := Some "state.json";
     confirm_tool := true;
     current_tasks := JList [];
     final_result := final_result colors_manager;
     stored_info := JDict [];
     tools_str := "";
     goal_completed := true |}.

(** A file system without the directory [nodir]: no file can be opened
    for writing below it. *)
Definition no_directory : world :=
  {| files := {| content := ∅;
                 denied := fun path =>
                   if String.prefix "nodir/" path then Some FileNotFoundError
                   else None |};
     trace := [] |}.

(** [colors_manager] configured to persist below the missing directory. *)
Definition nodir_manager : TaskManager :=
  {| final_goal := final_goal colors_manager;
     tools := tools colors_manager;
     verbose := verbose colors_manager;
     allow_repeat_tasks := allow_repeat_tasks colors_manager;
     completed_tasks := completed_tasks colors_manager;
     persist := Some "nodir/state.json";
     confirm_tool := confirm_tool colors_manager;
     current_tasks := current_tasks colors_manager;
     final_result := final_result colors_manager;
     stored_info := stored_info colors_manager;
     tools_str := tools_str colors_manager;
     goal_completed := goal_completed colors_manager |}.

Definition search_tool : BaseTool :=
  {| name := "search"; description := "web search" |}.

Definition calc_tool : BaseTool :=
  {| name := "calc"; description := "arithmetic" |}.

End Samples.

(* ===================================================================== *)
(** * Facts about the json module *)
(* ===================================================================== *)

Module JsonFacts.

#[local] Arguments String.append !_ _ / : simpl nomatch.

(** Induction on a JSON value, with the hypothesis for every member of a
    list or dict. *)
Lemma json_ind (P : json -> Prop)
    (Hnull : P JNull)
    (Hbool : forall b, P (JBool b))
    (Hint : forall n, P (JInt n))
    (Hstr : forall s, P (JStr s))
    (Hlist : forall l, Forall P l -> P (JList l))
    (Hdict : forall d, Forall (fun kv => P (snd kv)) d -> P (JDict d)) :
  forall v, P v.
Proof.
  fix IH 1. intros [ | b | n | s | l | d ].
  - exact Hnull.
  - apply Hbool.
  - apply Hint.
  - apply Hstr.
  - apply Hlist. induction l as [ | x l IHl ]; constructor; [ apply IH | exact IHl ].
  - apply Hdict. induction d as [ | [k x] d IHd ]; constructor; [ apply IH | exact IHd ].
Qed.

Lemma append_assoc (a b c : string) : (a +:+ b) +:+ c = a +:+ (b +:+ c).
Proof. induction a as [ | x a IH ]; simpl; [ reflexivity | now rewrite IH ]. Qed.

Lemma append_nil_r (a : string) : a +:+ "" = a.
Proof. induction a as [ | x a IH ]; simpl; [ reflexivity | now rewrite IH ]. Qed.

Lemma length_append (a b : string) :
  String.length (a +:+ b) = String.length a + String.length b.
Proof. induction a as [ | x a IH ]; simpl; [ reflexivity | now rewrite IH ]. Qed.

(** ** Strings *)

Lemma scanstring_escape_char (c : ascii) (t : string) :
  scanstring (escape_char c +:+ t) =
  match scanstring t with
  | Some (x, rest) => Some (String c x, rest)
  | None => None
  end.
Proof.
  destruct c as [[] [] [] [] [] [] [] []]; reflexivity.
Qed.

Lemma scanstring_escape (s rest : string) :
  scanstring (escape s +:+ rest) = Some (s, rest).
Proof.
  induction s as [ | c s IH ].
  - reflexivity.
  - change (escape (String c s)) with (escape_char c +:+ escape s).
    rewrite append_assoc, scanstring_escape_char, IH. reflexivity.
Qed.

(** ** Numbers *)

Lemma delimited_head (rest : string) :
  delimited rest = true ->
  rest = EmptyString \/
  exists r, rest = String "," r \/ rest = String "]" r \/ rest = String "}" r.
Proof.
  destruct rest as [ | c r ]; [ now left | ]. simpl. intros H. right. exists r.
  apply orb_true_iff in H as [H | H]; [ apply orb_true_iff in H as [H | H] | ];
    apply Ascii.eqb_eq in H; subst; auto.
Qed.

Lemma scan_digits_print (u : uint) (rest : string) :
  delimited rest = true ->
  scan_digits (NilEmpty.string_of_uint u +:+ rest) = (u, rest).
Proof.
  intros Hd. induction u; simpl; try (rewrite IHu; reflexivity).
  destruct (delimited_head rest Hd) as [-> | [r [-> | [-> | ->]]]]; reflexivity.
Qed.

Lemma float_follows_delimited (rest : string) :
  delimited rest = true -> float_follows rest = false.
Proof.
  intros Hd.
  destruct (delimited_head rest Hd) as [-> | [r [-> | [-> | ->]]]]; reflexivity.
Qed.

Lemma pos_to_uint_head (p : positive) :
  Pos.to_uint p <> Nil /\ forall u, Pos.to_uint p <> D0 u.
Proof.
  split; [ apply DecimalPos.Unsigned.to_uint_nonnil | ].
  intros u Hu.
  pose proof (DecimalPos.Unsigned.to_of (Pos.to_uint p)) as H.
  rewrite DecimalPos.Unsigned.of_to in H. simpl in H.
  unfold unorm in H.
  destruct (nzhead (Pos.to_uint p)) eqn:Hz;
    [ exact (DecimalPos.Unsigned.to_uint_nonzero p H)
    | exact (DecimalFacts.nzhead_nonzero _ _ Hz)
    | congruence .. ].
Qed.

Lemma scan_uint_print (u : uint) (rest : string) :
  u <> Nil -> (forall u', u <> D0 u') -> delimited rest = true ->
  scan_uint (NilEmpty.string_of_uint u +:+ rest) = Some (u, rest).
Proof.
  intros Hnil H0 Hd.
  destruct u as [ | u | u | u | u | u | u | u | u | u | u ];
    try congruence; try (exfalso; apply (H0 u); reflexivity);
    simpl; rewrite (scan_digits_print u rest Hd); reflexivity.
Qed.

Lemma scan_number_pos (u : uint) (rest : string) :
  u <> Nil -> (forall u', u <> D0 u') -> delimited rest = true ->
  scan_number (NilEmpty.string_of_uint u +:+ rest) =
  Some (JInt (Z.of_int (Pos u)), rest).
Proof.
  intros Hnil H0 Hd.
  pose proof (float_follows_delimited rest Hd) as Hf.
  destruct u as [ | u | u | u | u | u | u | u | u | u | u ];
    try congruence; try (exfalso; apply (H0 u); reflexivity);
    unfold scan_number, scan_uint; simpl String.append;
    cbv iota beta; simpl Ascii.eqb; cbv iota;
    rewrite (scan_digits_print u rest Hd);
    match goal with
    | |- context [ digit_val ?c ] =>
        let v := eval vm_compute in (digit_val c) in change (digit_val c) with v
    end;
    cbv iota beta; rewrite Hf; reflexivity.
Qed.

Lemma scan_number_neg (u : uint) (rest : string) :
  u <> Nil -> (forall u', u <> D0 u') -> delimited rest = true ->
  scan_number (String "-" (NilEmpty.string_of_uint u +:+ rest)) =
  Some (JInt (Z.of_int (Neg u)), rest).
Proof.
  intros Hnil H0 Hd.
  pose proof (float_follows_delimited rest Hd) as Hf.
  unfold scan_number. simpl Ascii.eqb. cbv iota.
  rewrite (scan_uint_print u rest Hnil H0 Hd), Hf. reflexivity.
Qed.

Lemma scan_number_print (n : Z) (rest : string) :
  delimited rest = true ->
  scan_number (encode_int n +:+ rest) = Some (JInt n, rest).
Proof.
  intros Hd. pose proof (DecimalZ.of_to n) as Hn.
  unfold encode_int. destruct n as [ | p | p ].
  - simpl. rewrite (float_follows_delimited rest Hd). reflexivity.
  - change (Z.to_int (Z.pos p)) with (Pos (Pos.to_uint p)) in *.
    destruct (pos_to_uint_head p) as [Hnil H0].
    rewrite (scan_number_pos _ rest Hnil H0 Hd), Hn. reflexivity.
  - change (Z.to_int (Z.neg p)) with (Neg (Pos.to_uint p)) in *.
    destruct (pos_to_uint_head p) as [Hnil H0].
    change (String "-" (NilEmpty.string_of_uint (Pos.to_uint p)) +:+ rest)
      with (String "-" (NilEmpty.string_of_uint (Pos.to_uint p) +:+ rest)).
    rewrite (scan_number_neg _ rest Hnil H0 Hd), Hn. reflexivity.
Qed.

(** ** Dicts *)

Lemma dict_set_fresh (k : string) (v : json) (d : dict) :
  k ∉ map fst d -> dict_set k v d = d ++ [(k, v)].
Proof.
  induction d as [ | [k' v'] d IH ]; simpl; intros Hk; [ reflexivity | ].
  apply not_elem_of_cons in Hk as [Hne Hk].
  destruct (String.eqb_spec k k') as [-> | _]; [ congruence | ].
  now rewrite IH.
Qed.

Lemma fold_dict_set (ps acc : dict) :
  NoDup (map fst (acc ++ ps)) ->
  fold_left (fun d kv => dict_set (fst kv) (snd kv) d) ps acc = acc ++ ps.
Proof.
  revert acc. induction ps as [ | [k v] ps IH ]; intros acc Hnd; simpl.
  - now rewrite app_nil_r.
  - rewrite dict_set_fresh.
    + rewrite IH; rewrite <- app_assoc; [ reflexivity | exact Hnd ].
    + rewrite map_app in Hnd. apply NoDup_app in Hnd as (_ & Hdis & _).
      intros Hin. apply (Hdis k Hin). simpl. left.
Qed.

Lemma dict_of_pairs_nodup (d : dict) :
  NoDup (map fst d) -> dict_of_pairs d = d.
Proof. intros Hnd. unfold dict_of_pairs. now rewrite fold_dict_set. Qed.

Lemma wf_json_list (l : list json) : wf_json (JList l) <-> Forall wf_json l.
Proof.
  simpl. induction l as [ | x l IH ]; [ split; auto | ].
  rewrite Forall_cons, <- IH. reflexivity.
Qed.

Lemma wf_json_dict (d : dict) :
  wf_json (JDict d) <-> NoDup (map fst d) /\ Forall (fun kv => wf_json (snd kv)) d.
Proof.
  simpl. apply and_iff_compat_l.
  induction d as [ | kv d IH ]; [ split; auto | ].
  rewrite Forall_cons, <- IH. reflexivity.
Qed.

(** ** Values *)

Lemma json_dumps_list (x : json) (l : list json) :
  json_dumps (JList (x :: l)) = String "[" (json_dumps x +:+ more_items l).
Proof. reflexivity. Qed.

Lemma json_dumps_dict (k : string) (x : json) (d : dict) :
  json_dumps (JDict ((k, x) :: d)) =
  String "{" (encode_str k +:+ ": " +:+ json_dumps x +:+ more_pairs d).
Proof. reflexivity. Qed.

Lemma json_size_list (l : list json) :
  json_size (JList l) = S (list_sum (map json_size l)).
Proof. simpl. f_equal. induction l as [ | x l IH ]; simpl; [ reflexivity | now rewrite IH ]. Qed.

Lemma json_size_dict (d : dict) :
  json_size (JDict d) = S (list_sum (map (fun kv => json_size (snd kv)) d)).
Proof. simpl. f_equal. induction d as [ | x l IH ]; simpl; [ reflexivity | now rewrite IH ]. Qed.

Lemma json_size_pos (v : json) : 1 <= json_size v.
Proof. destruct v; simpl; lia. Qed.

Lemma encode_int_opens (n : Z) : opens (encode_int n).
Proof.
  unfold encode_int. destruct n as [ | p | p ].
  - repeat eexists.
  - change (Z.to_int (Z.pos p)) with (Pos (Pos.to_uint p)).
    destruct (pos_to_uint_head p) as [Hnil H0].
    destruct (Pos.to_uint p); try congruence; repeat eexists.
  - repeat eexists.
Qed.

Lemma json_dumps_opens (v : json) : opens (json_dumps v).
Proof.
  destruct v as [ | [] | n | s | l | d ]; try (repeat eexists; fail).
  apply encode_int_opens.
Qed.

Lemma skip_ws_opens (s rest : string) : opens s -> skip_ws (s +:+ rest) = s +:+ rest.
Proof. intros (c & r & -> & Hws & _). simpl. now rewrite Hws. Qed.

Lemma delimited_more_items (l : list json) (rest : string) :
  delimited (more_items l +:+ rest) = true.
Proof. destruct l; reflexivity. Qed.

Lemma delimited_more_pairs (d : dict) (rest : string) :
  delimited (more_pairs d +:+ rest) = true.
Proof. destruct d as [ | [k v] d ]; reflexivity. Qed.

Lemma scan_items_last (pv : string -> option (json * string)) k s v rest :
  pv s = Some (v, String "]" rest) ->
  scan_items pv (S k) s = Some ([v], rest).
Proof. intros H. cbn [scan_items]. rewrite H. reflexivity. Qed.

Lemma scan_items_more (pv : string -> option (json * string)) k s v t :
  pv s = Some (v, String "," (String " " t)) ->
  scan_items pv (S k) s =
  match scan_items pv k (skip_ws t) with
  | Some (vs, rest) => Some (v :: vs, rest)
  | None => None
  end.
Proof. intros H. cbn [scan_items]. rewrite H. reflexivity. Qed.

Lemma scan_items_dumps (m : nat) (l : list json) :
  Forall reads_back l ->
  Forall wf_json l ->
  Forall (fun v => json_size v <= m) l ->
  forall x k rest,
    reads_back x -> wf_json x -> json_size x <= m ->
    length l < k ->
    scan_items (scan m) k (json_dumps x +:+ more_items l +:+ rest) =
    Some (x :: l, rest).
Proof.
  induction l as [ | y l IH ]; intros Hrb Hwf Hsz x k rest Hx Hwx Hsx Hk;
    (destruct k as [ | k ]; [ simpl in Hk; lia | ]).
  - apply scan_items_last.
    apply (Hx m _ Hsx (delimited_more_items [] rest) Hwx).
  - apply Forall_cons in Hrb as [Hy Hrb]. apply Forall_cons in Hwf as [Hwy Hwf].
    apply Forall_cons in Hsz as [Hsy Hsz].
    rewrite (scan_items_more _ k _ x (json_dumps y +:+ more_items l +:+ rest)).
    + rewrite (skip_ws_opens _ _ (json_dumps_opens y)).
      rewrite (IH Hrb Hwf Hsz y k rest Hy Hwy Hsy); [ reflexivity | simpl in Hk; lia ].
    + rewrite (Hx m _ Hsx (delimited_more_items (y :: l) rest) Hwx).
      cbn [more_items]. rewrite !append_assoc. reflexivity.
Qed.

Lemma scan_pairs_step (pv : string -> option (json * string)) k key t :
  skip_ws t = t ->
  scan_pairs pv (S k) (encode_str key +:+ ": " +:+ t) =
  match pv t with
  | Some (v, r) =>
      match skip_ws r with
      | String c r' =>
          if Ascii.eqb c "}" then Some ([(key, v)], r')
          else if Ascii.eqb c "," then
            match scan_pairs pv k (skip_ws r') with
            | Some (ps, rest) => Some ((key, v) :: ps, rest)
            | None => None
            end
          else None
      | EmptyString => None
      end
  | None => None
  end.
Proof.
  intros Ht. unfold encode_str. cbn [scan_pairs String.append].
  change (Ascii.eqb dquote dquote) with true. cbv iota.
  rewrite scanstring_escape. cbn [skip_ws String.append].
  change (is_ws ":") with false. cbv iota.
  change (Ascii.eqb ":" ":") with true. cbv iota.
  change (skip_ws (String " " t)) with (skip_ws t).
  rewrite Ht. reflexivity.
Qed.

Lemma scan_pairs_dumps (m : nat) (d : dict) :
  Forall (fun kv => reads_back (snd kv)) d ->
  Forall (fun kv => wf_json (snd kv)) d ->
  Forall (fun kv => json_size (snd kv) <= m) d ->
  forall key x k rest,
    reads_back x -> wf_json x -> json_size x <= m ->
    length d < k ->
    scan_pairs (scan m) k
      (encode_str key +:+ ": " +:+ json_dumps x +:+ more_pairs d +:+ rest) =
    Some ((key, x) :: d, rest).
Proof.
  induction d as [ | [key' y] d IH ]; intros Hrb Hwf Hsz key x k rest Hx Hwx Hsx Hk;
    (destruct k as [ | k ]; [ simpl in Hk; lia | ]);
    rewrite scan_pairs_step by apply (skip_ws_opens _ _ (json_dumps_opens x)).
  - rewrite (Hx m _ Hsx (delimited_more_pairs [] rest) Hwx). reflexivity.
  - apply Forall_cons in Hrb as [Hy Hrb]. apply Forall_cons in Hwf as [Hwy Hwf].
    apply Forall_cons in Hsz as [Hsy Hsz]. simpl in Hy, Hwy, Hsy.
    rewrite (Hx m _ Hsx (delimited_more_pairs ((key', y) :: d) rest) Hwx).
    cbn [more_pairs]. rewrite !append_assoc.
    cbn [String.append skip_ws].
    change (is_ws ",") with false. cbv iota.
    change (Ascii.eqb "," "}") with false. change (Ascii.eqb "," ",") with true.
    cbv iota.
    match goal with
    | |- context [ skip_ws (String " " ?t) ] =>
        change (skip_ws (String " " t)) with
          (encode_str key' +:+ ": " +:+ json_dumps y +:+ more_pairs d +:+ rest)
    end.
    rewrite (IH Hrb Hwf Hsz key' y k rest Hy Hwy Hsy); [ reflexivity | simpl in Hk; lia ].
Qed.

Lemma list_sum_bound {A} (f : A -> nat) (l : list A) :
  (forall x, 1 <= f x) ->
  length l <= list_sum (map f l) /\ Forall (fun x => f x <= list_sum (map f l)) l.
Proof.
  intros Hf. induction l as [ | x l [IH1 IH2] ]; simpl; [ split; [ lia | constructor ] | ].
  split; [ specialize (Hf x); lia | ].
  constructor; [ lia | ].
  eapply Forall_impl; [ exact IH2 | ]. simpl. intros; lia.
Qed.

Lemma scan_starts_number (n : nat) (c : ascii) (r : string) :
  starts_number c = true -> scan (S n) (String c r) = scan_number (String c r).
Proof.
  destruct c as [[] [] [] [] [] [] [] []]; try discriminate; reflexivity.
Qed.

Lemma encode_int_head (z : Z) :
  exists c r, encode_int z = String c r /\ starts_number c = true.
Proof.
  unfold encode_int. destruct z as [ | p | p ].
  - repeat eexists.
  - change (Z.to_int (Z.pos p)) with (Pos (Pos.to_uint p)).
    destruct (pos_to_uint_head p) as [Hnil H0].
    destruct (Pos.to_uint p); try congruence; repeat eexists.
  - repeat eexists.
Qed.

Lemma scan_list (n : nat) (text : string) :
  opens text ->
  scan (S n) (String "[" text) =
  match scan_items (scan n) n text with
  | Some (vs, rest) => Some (JList vs, rest)
  | None => None
  end.
Proof.
  intros (c & r & -> & Hws & Hb & _). cbn [scan skip_ws].
  change (Ascii.eqb "[" dquote) with false. change (Ascii.eqb "[" "{") with false.
  change (Ascii.eqb "[" "[") with true. cbv iota.
  rewrite Hws, Hb. reflexivity.
Qed.

Lemma scan_dict (n : nat) (text : string) :
  scan (S n) (String "{" (String dquote text)) =
  match scan_pairs (scan n) n (String dquote text) with
  | Some (ps, rest) => Some (JDict (dict_of_pairs ps), rest)
  | None => None
  end.
Proof. reflexivity. Qed.

Lemma opens_append (s t : string) : opens s -> opens (s +:+ t).
Proof. intros (c & r & -> & H). exists c, (r +:+ t). split; [ reflexivity | exact H ]. Qed.

(** [json.loads] reads back what [json.dumps] wrote, for every value of
    the model, when no dict holds a key twice. *)
Lemma scan_json_dumps (v : json) : reads_back v.
Proof.
  induction v as [ | b | z | s | l IHl | d IHd ] using json_ind;
    intros n rest Hn Hd Hwf; (destruct n as [ | n ]; [ simpl in Hn; lia | ]).
  - reflexivity.
  - destruct b; reflexivity.
  - cbn [json_dumps].
    destruct (encode_int_head z) as (c & r & Hz & Hc).
    pose proof (scan_number_print z rest Hd) as Hs.
    rewrite Hz in *. cbn [String.append] in *.
    rewrite (scan_starts_number _ _ _ Hc). exact Hs.
  - cbn [json_dumps]. unfold encode_str. cbn [String.append scan].
    change (Ascii.eqb dquote dquote) with true. cbv iota.
    rewrite scanstring_escape. reflexivity.
  - destruct l as [ | x l ]; [ reflexivity | ].
    rewrite json_dumps_list. cbn [String.append].
    rewrite append_assoc.
    rewrite scan_list by apply opens_append, json_dumps_opens.
    rewrite json_size_list in Hn.
    destruct (list_sum_bound json_size (x :: l) json_size_pos) as [Hlen Hall].
    apply wf_json_list in Hwf.
    apply Forall_cons in IHl as [Hx IHl]. apply Forall_cons in Hwf as [Hwx Hwf].
    assert (Hall' : Forall (fun v => json_size v <= n) (x :: l)).
    { eapply Forall_impl; [ exact Hall | ]. intros y Hy. simpl in *. lia. }
    apply Forall_cons in Hall' as [Hsx Hsl].
    rewrite (scan_items_dumps n l IHl Hwf Hsl x n rest Hx Hwx Hsx);
      [ reflexivity | simpl in *; lia ].
  - destruct d as [ | [key x] d ]; [ reflexivity | ].
    rewrite json_dumps_dict. cbn [String.append].
    rewrite !append_assoc. unfold encode_str at 1. cbn [String.append].
    rewrite scan_dict, (append_assoc (json_dumps x)).
    match goal with
    | |- context [ scan_pairs _ _ ?t ] =>
        change t with
          (encode_str key +:+ ": " +:+ json_dumps x +:+ more_pairs d +:+ rest)
    end.
    rewrite json_size_dict in Hn.
    destruct (list_sum_bound (fun kv : string * json => json_size (snd kv))
                ((key, x) :: d) (fun kv => json_size_pos (snd kv))) as [Hlen Hall].
    apply wf_json_dict in Hwf as [Hnd Hwf].
    apply Forall_cons in IHd as [Hx IHd]. apply Forall_cons in Hwf as [Hwx Hwf].
    assert (Hall' : Forall (fun kv : string * json => json_size (snd kv) <= n) ((key, x) :: d)).
    { eapply Forall_impl; [ exact Hall | ]. intros y Hy. simpl in *. lia. }
    apply Forall_cons in Hall' as [Hsx Hsl]. simpl in Hx, Hwx, Hsx.
    rewrite (scan_pairs_dumps n d IHd Hwf Hsl key x n rest Hx Hwx Hsx);
      [ | simpl in *; lia ].
    rewrite dict_of_pairs_nodup by exact Hnd. reflexivity.
Qed.

Lemma length_json_dumps (v : json) : json_size v <= String.length (json_dumps v).
Proof.
  induction v as [ | b | z | s | l IHl | d IHd ] using json_ind.
  - simpl; lia.
  - destruct b; simpl; lia.
  - destruct (encode_int_head z) as (c & r & Hz & _). simpl. rewrite Hz. simpl. lia.
  - simpl. lia.
  - destruct l as [ | x l ]; [ simpl; lia | ].
    rewrite json_dumps_list, json_size_list. cbn [String.length].
    apply le_n_S. rewrite length_append.
    apply Forall_cons in IHl as [Hx IHl]. simpl.
    enough (list_sum (map json_size l) <= String.length (more_items l)) by lia.
    clear x Hx. induction IHl as [ | y l Hy _ IH ]; simpl; [ lia | ].
    rewrite !length_append; lia.
  - destruct d as [ | [key x] d ]; [ simpl; lia | ].
    rewrite json_dumps_dict, json_size_dict. cbn [String.length].
    apply le_n_S. rewrite !length_append.
    apply Forall_cons in IHd as [Hx IHd]. simpl in *.
    enough (list_sum (map (fun kv : string * json => json_size (snd kv)) d)
            <= String.length (more_pairs d)) by lia.
    clear x Hx. induction IHd as [ | [k y] d Hy _ IH ]; simpl in *; [ lia | ].
    rewrite !length_append. cbn [String.length]. rewrite length_append. lia.
Qed.

(** The round trip of the json module. *)
Lemma json_loads_dumps (v : json) :
  wf_json v -> json_loads (json_dumps v) = Some v.
Proof.
  intros Hwf. unfold json_loads.
  pose proof (skip_ws_opens _ "" (json_dumps_opens v)) as Hws.
  rewrite append_nil_r in Hws. rewrite Hws.
  pose proof (scan_json_dumps v _ "" (length_json_dumps v) eq_refl Hwf) as Hs.
  rewrite append_nil_r in Hs. rewrite Hs. reflexivity.
Qed.

End JsonFacts.

(* ===================================================================== *)
(** * Facts about task_manager.py *)
(* ===================================================================== *)

Module TMFacts.
Import TM JsonFacts.

Lemma eqb_empty_false (path : string) : path <> "" -> String.eqb path "" = false.
Proof. intros H. now apply String.eqb_neq. Qed.

(** The file system: a path holds what was last written to it, the other
    paths are untouched, and writing changes nothing about which paths
    can be opened. *)
Lemma fs_lookup_insert_eq (fs : filesystem) (path text : string) :
  <[path := text]> fs !! path = Some text.
Proof. unfold lookup, filesystem_lookup. cbn [content insert filesystem_insert].
  apply lookup_insert_eq. Qed.

Lemma fs_lookup_insert_ne (fs : filesystem) (path other text : string) :
  path <> other -> <[path := text]> fs !! other = fs !! other.
Proof. intros H. unfold lookup, filesystem_lookup.
  cbn [content insert filesystem_insert]. now apply lookup_insert_ne. Qed.

Lemma fs_insert_insert_eq (fs : filesystem) (path text1 text2 : string) :
  <[path := text2]> (<[path := text1]> fs) = <[path := text2]> fs.
Proof. unfold insert, filesystem_insert. cbn [content denied]. f_equal.
  apply insert_insert_eq. Qed.


Lemma denied_insert (fs : filesystem) (path text : string) :
  denied (<[path := text]> fs) = denied fs.
Proof. reflexivity. Qed.

Lemma write_json_ok (path : string) (v : json) (w : world) :
  path <> "" -> denied (files w) path = None ->
  write_json path v w =
  Ok tt {| files := <[path := json_dumps v]> (files w); trace := trace w |}.
Proof. intros H Hd. unfold write_json. now rewrite eqb_empty_false, Hd. Qed.

Lemma write_json_denied (path : string) (v : json) (w : world) (e : exn) :
  path <> "" -> denied (files w) path = Some e ->
  write_json path v w = Raise e w.
Proof. intros H Hd. unfold write_json. now rewrite eqb_empty_false, Hd. Qed.

(** The document written by [_save_persist]. *)
Lemma save_persist_ok (self : TaskManager) (w : world) (path : string) :
  persist self = Some path -> path <> "" -> denied (files w) path = None ->
  _save_persist self w =
  Ok tt {| files := <[path := json_dumps (saved_state self)]> (files w);
           trace := trace w ++ [Output ("saved stored info to: " +:+ path)] |}.
Proof.
  intros Hp Hne Hd. unfold _save_persist, bind. rewrite Hp.
  fold (saved_state self). rewrite (write_json_ok _ _ _ Hne Hd). reflexivity.
Qed.

(** When [open] raises, [_save_persist] raises the same exception: nothing
    is written and the output callback is not called. *)
Lemma save_persist_denied (self : TaskManager) (w : world) (path : string) (e : exn) :
  persist self = Some path -> path <> "" -> denied (files w) path = Some e ->
  _save_persist self w = Raise e w.
Proof.
  intros Hp Hne Hd. unfold _save_persist, bind. rewrite Hp.
  rewrite (write_json_denied _ _ _ _ Hne Hd). reflexivity.
Qed.

Lemma load_persist_missing (self : TaskManager) (w : world) (path : string) :
  persist self = Some path -> files w !! path = None ->
  _load_persist self w =
  Ok (set_loaded self [])
     {| files := files w;
        trace := trace w ++
          [Output ("[system] Could not read " +:+ path +:+
                   ", assuming new file. It will be created later.")] |}.
Proof.
  intros Hp Hf. unfold _load_persist, bind, path_exists. rewrite Hp, Hf.
  rewrite bool_decide_eq_false_2 by (intros [x Hx]; discriminate). reflexivity.
Qed.

Lemma load_persist_present (self : TaskManager) (w : world) (path text : string) (d : dict) :
  persist self = Some path -> files w !! path = Some text ->
  json_loads text = Some (JDict d) ->
  _load_persist self w =
  Ok (set_loaded self d)
     {| files := files w;
        trace := trace w ++ [Output ("[system] Loaded stored info from: " +:+ path)] |}.
Proof.
  intros Hp Hf Hj. unfold _load_persist, bind, path_exists. rewrite Hp.
  rewrite bool_decide_eq_true_2 by (rewrite Hf; eauto).
  unfold read_json. rewrite Hf, Hj. reflexivity.
Qed.

Lemma wf_saved_state (self : TaskManager) :
  wf_json (stored_info self) -> wf_json (final_result self) ->
  wf_json (current_tasks self) -> wf_json (completed_tasks self) ->
  wf_json (saved_state self).
Proof.
  intros H1 H2 H3 H4. apply wf_json_dict. split.
  - apply (bool_decide_unpack _). vm_compute. exact I.
  - repeat constructor; assumption.
Qed.

End TMFacts.

(* ===================================================================== *)
(** * Persistence, construction and the module-level functions *)
(* ===================================================================== *)

Module TMClaims.
Import TM JsonFacts TMFacts.


(** C3. A missing file is no error: when no file exists at the configured
    path, construction succeeds and StoredInfo, FinalResult, CurrentTasks
    and CompletedTasks are empty; so does [_load_persist] on its own. *)
Theorem missing_file_is_empty_state
    (goal : string) (tools : list descriptor) (verbose : bool)
    (current_tasks0 final_result0 : json) (allow : bool) (completed_tasks0 : json)
    (path : string) (confirm : bool) (w : world) :
  path <> "" -> files w !! path = None ->
  (exists tm w',
     __init__ goal tools verbose current_tasks0 final_result0 allow
              completed_tasks0 (Some path) confirm w = Ok tm w' /\
     files w' = files w /\
     stored_info tm = JDict [] /\ final_result tm = JDict [] /\
     current_tasks tm = JList [] /\ completed_tasks tm = JDict []) /\
  (forall self, persist self = Some path ->
     exists self' w',
       _load_persist self w = Ok self' w' /\
       stored_info self' = JDict [] /\ final_result self' = JDict [] /\
       current_tasks self' = JList [] /\ completed_tasks self' = JDict []).
Proof.
  intros Hne Hf. split.
  - unfold __init__, bind. cbn [persist_set]. rewrite (eqb_empty_false _ Hne).
    cbn [negb]. erewrite load_persist_missing by (reflexivity || exact Hf).
    do 2 eexists. split; [ reflexivity | ]. repeat split.
  - intros self Hp. rewrite (load_persist_missing self w path Hp Hf).
    do 2 eexists. split; [ reflexivity | ]. repeat split.
Qed.

(** C4. The persisted document: where the configured path can be opened
    for writing, [_save_persist] writes there a JSON object with exactly
    the four keys "stored_info", "final_result", "current_tasks" and
    "completed_tasks" in this order, each followed by the dump of the
    corresponding field, and no other key; every other file is left as
    it was.  Where [open] raises, [_save_persist] raises the same
    exception and writes nothing. *)
Theorem save_persist_document (self : TaskManager) (w : world) (path : string) :
  persist self = Some path -> path <> "" ->
  (forall e, denied (files w) path = Some e -> _save_persist self w = Raise e w) /\
  (denied (files w) path = None ->
  exists w',
    _save_persist self w = Ok tt w' /\
    files w' !! path =
      Some (json_dumps (JDict [("stored_info", stored_info self);
                               ("final_result", final_result self);
                               ("current_tasks", current_tasks self);
                               ("completed_tasks", completed_tasks self)])) /\
    files w' !! path =
      Some ("{" +:+ encode_str "stored_info" +:+ ": " +:+ json_dumps (stored_info self)
            +:+ ", " +:+ encode_str "final_result" +:+ ": " +:+ json_dumps (final_result self)
            +:+ ", " +:+ encode_str "current_tasks" +:+ ": " +:+ json_dumps (current_tasks self)
            +:+ ", " +:+ encode_str "completed_tasks" +:+ ": " +:+ json_dumps (completed_tasks self)
            +:+ "}") /\
    (forall other, other <> path -> files w' !! other = files w !! other) /\
    (wf_json (stored_info self) -> wf_json (final_result self) ->
     wf_json (current_tasks self) -> wf_json (completed_tasks self) ->
     exists text d,
       files w' !! path = Some text /\ json_loads text = Some (JDict d) /\
       keys d = ["stored_info"; "final_result"; "current_tasks"; "completed_tasks"] /\
       dict_get "stored_info" d = Some (stored_info self) /\
       dict_get "final_result" d = Some (final_result self) /\
       dict_get "current_tasks" d = Some (current_tasks self) /\
       dict_get "completed_tasks" d = Some (completed_tasks self))).
Proof.
  intros Hp Hne.
  split; [ intros e Hd; apply (save_persist_denied self w path e Hp Hne Hd) | ].
  intros Hd. rewrite (save_persist_ok self w path Hp Hne Hd).
  eexists. split; [ reflexivity | ]. cbn [files].
  split; [ apply fs_lookup_insert_eq | ].
  split; [ rewrite fs_lookup_insert_eq; reflexivity | ].
  split; [ intros other Ho; apply fs_lookup_insert_ne; congruence | ].
  intros H1 H2 H3 H4. do 2 eexists.
  split; [ apply fs_lookup_insert_eq | ].
  split; [ apply json_loads_dumps, wf_saved_state; assumption | ].
  repeat split.
Qed.

(** C5, as amended.  What construction yields:
    - without a persistence path ([None] or the empty string), the
      caller's current_tasks, final_result and completed_tasks (an empty
      value where the argument is [None] or empty) and an empty
      stored_info;
    - with a path and no file, four empty fields;
    - with a path and a file holding a JSON object, the four fields
      loaded from that object, a missing key giving the empty value;
    and in each of these cases the tool listing built from the
    descriptors, where a descriptor made of a name and a description is
    rendered as the two lines [name: ...] and [description: ...]. *)
Theorem init_state
    (goal : string) (tools : list descriptor) (verbose : bool)
    (current_tasks0 final_result0 : json) (allow : bool) (completed_tasks0 : json)
    (persist0 : option string) (confirm : bool) (w : world) :
  let init := __init__ goal tools verbose current_tasks0 final_result0 allow
                       completed_tasks0 persist0 confirm w in
  (persist_set persist0 = false ->
   exists tm,
     init = Ok tm w /\
     current_tasks tm = py_or current_tasks0 (JList []) /\
     final_result tm = py_or final_result0 (JDict []) /\
     completed_tasks tm = py_or completed_tasks0 (JDict []) /\
     stored_info tm = JDict [] /\
     tools_str tm = _make_tools_str tools) /\
  (forall path,
     persist0 = Some path -> path <> "" -> files w !! path = None ->
     exists tm w',
       init = Ok tm w' /\
       stored_info tm = JDict [] /\ final_result tm = JDict [] /\
       current_tasks tm = JList [] /\ completed_tasks tm = JDict [] /\
       tools_str tm = _make_tools_str tools) /\
  (forall path text d,
     persist0 = Some path -> path <> "" -> files w !! path = Some text ->
     json_loads text = Some (JDict d) ->
     exists tm w',
       init = Ok tm w' /\
       stored_info tm = get d "stored_info" (JDict []) /\
       final_result tm = get d "final_result" (JDict []) /\
       current_tasks tm = get d "current_tasks" (JList []) /\
       completed_tasks tm = get d "completed_tasks" (JDict []) /\
       tools_str tm = _make_tools_str tools) /\
  (forall ts : list BaseTool,
     _make_tools_str
       (map (fun t => [("name", name t); ("description", description t)]) ts) =
     join ("-----" +:+ String "010"%char "")
       (map (fun t => "name: " +:+ name t +:+ String "010"%char "" +:+
                      "description: " +:+ description t) ts)).
Proof.
  intros init. subst init. repeat split.
  - intros Hp. unfold __init__, bind. rewrite Hp.
    eexists. split; [ reflexivity | ]. repeat split.
  - intros path -> Hne Hf. unfold __init__, bind. cbn [persist_set].
    rewrite (eqb_empty_false _ Hne). cbn [negb].
    erewrite load_persist_missing by (reflexivity || exact Hf).
    do 2 eexists. split; [ reflexivity | ]. repeat split.
  - intros path text d -> Hne Hf Hj. unfold __init__, bind. cbn [persist_set].
    rewrite (eqb_empty_false _ Hne). cbn [negb].
    erewrite (load_persist_present _ w path text d) by (reflexivity || eassumption).
    do 2 eexists. split; [ reflexivity | ]. repeat split.
  - intros ts. unfold _make_tools_str. rewrite map_map. do 2 f_equal.
Qed.

(** C8. With a persistence path set, the constructor arguments
    current_tasks, final_result and completed_tasks are discarded:
    construction gives what it gives when they are omitted, and with no
    file at the path all four fields are empty whatever the caller
    passed.  For any construction, stored_info is the empty dict unless a
    path is set and a file exists at it. *)
Theorem init_discards_arguments
    (goal : string) (tools : list descriptor) (verbose : bool)
    (current_tasks0 final_result0 : json) (allow : bool) (completed_tasks0 : json)
    (persist0 : option string) (confirm : bool) (w : world) :
  let init := __init__ goal tools verbose current_tasks0 final_result0 allow
                       completed_tasks0 persist0 confirm w in
  (persist_set persist0 = true ->
   init = __init__ goal tools verbose JNull JNull allow JNull persist0 confirm w) /\
  (forall path,
     persist_set persist0 = true -> persist0 = Some path -> files w !! path = None ->
     exists tm w',
       init = Ok tm w' /\
       stored_info tm = JDict [] /\ final_result tm = JDict [] /\
       current_tasks tm = JList [] /\ completed_tasks tm = JDict []) /\
  (forall tm w',
     init = Ok tm w' ->
     stored_info tm = JDict [] \/
     exists path text d,
       persist0 = Some path /\ files w !! path = Some text /\
       json_loads text = Some (JDict d) /\
       stored_info tm = get d "stored_info" (JDict [])).
Proof.
  intros init. subst init. repeat split.
  - intros Hp. unfold __init__, bind. rewrite Hp.
    destruct persist0 as [path | ]; [ | discriminate ].
    unfold _load_persist, bind, path_exists, read_json, output_func, emit, ret, raise.
    cbn [persist files trace].
    destruct (files w !! path) as [text | ] eqn:Hf.
    + rewrite bool_decide_eq_true_2 by eauto. rewrite Hf.
      destruct (json_loads text) as [[ | | | | | d] | ]; reflexivity.
    + rewrite bool_decide_eq_false_2 by (intros [x Hx]; discriminate). reflexivity.
  - intros path Hp -> Hf. unfold __init__, bind. rewrite Hp.
    erewrite load_persist_missing by (reflexivity || exact Hf).
    do 2 eexists. split; [ reflexivity | ]. repeat split.
  - intros tm w'. unfold __init__, bind.
    destruct (persist_set persist0) eqn:Hp.
    + destruct persist0 as [path | ]; [ | discriminate ].
      unfold _load_persist, bind, path_exists, read_json, output_func, emit, ret, raise.
      cbn [persist files trace].
      destruct (files w !! path) as [text | ] eqn:Hf.
      * rewrite bool_decide_eq_true_2 by eauto. rewrite Hf.
        destruct (json_loads text) as [[ | | | | | d] | ] eqn:Hj; try discriminate.
        intros [= <- <-]. right. exists path, text, d. repeat split; assumption.
      * rewrite bool_decide_eq_false_2 by (intros [x Hx]; discriminate).
        intros [= <- <-]. left. reflexivity.
    + intros [= <- <-]. left. reflexivity.
Qed.

(** C9. [convert_langchain_tools] returns one dict per [BaseTool]
    instance of the list, in the order of the list, with exactly the two
    keys 'name' and 'description' taken from that tool; the elements that
    are not [BaseTool] instances are dropped. *)
Theorem convert_langchain_tools_spec (tools : list pyobj) :
  convert_langchain_tools tools =
    map (fun t => [("name", name t); ("description", description t)])
        (omap (fun o => match o with Tool t => Some t | Other _ => None end) tools) /\
  Forall (fun d : descriptor => map fst d = ["name"; "description"])
         (convert_langchain_tools tools) /\
  (forall t, convert_langchain_tools [Tool t] =
             [[("name", name t); ("description", description t)]]) /\
  (forall v, convert_langchain_tools [Other v] = []) /\
  (forall before after,
     tools = before ++ after ->
     convert_langchain_tools tools =
     convert_langchain_tools before ++ convert_langchain_tools after).
Proof.
  repeat split.
  - induction tools as [ | [t | v] tools IH ]; simpl; [ reflexivity | | exact IH ].
    now rewrite IH.
  - induction tools as [ | [t | v] tools IH ]; simpl; [ constructor | | exact IH ].
    constructor; [ reflexivity | exact IH ].
  - intros before after ->.
    induction before as [ | [t | v] before IH ]; simpl; [ reflexivity | | exact IH ].
    now rewrite IH.
Qed.

Lemma append_nonempty (a b : string) : b <> "" -> a +:+ b <> "".
Proof. destruct a; simpl; [ auto | discriminate ]. Qed.

Lemma length_replace (old new : ascii) (s : string) :
  String.length (replace old new s) = String.length s.
Proof. induction s as [ | c s IH ]; simpl; [ reflexivity | now rewrite IH ]. Qed.

Lemma get_replace (old new : ascii) (s : string) (i : nat) :
  String.get i (replace old new s) =
  (fun c => if Ascii.eqb c old then new else c) <$> String.get i s.
Proof.
  revert i. induction s as [ | c s IH ]; intros [ | i ]; simpl; try reflexivity.
  apply IH.
Qed.

(** C10. [save_to_file] announces and opens the file named after the
    goal, every space replaced by an underscore (and no other character
    changed), followed by '.result.txt'.  When [open] succeeds, the JSON
    serialization of the result is written to that file; when [open]
    raises (the name holds a '/' and the directory is missing, say), the
    exception is raised after the announcement and no file is written. *)
Theorem save_to_file_spec (goal : string) (result : json) (w : world) :
  let stem := replace " " "_" goal in
  let fn := stem +:+ ".result.txt" in
  (denied (files w) fn = None ->
   save_to_file goal result w =
     Ok tt {| files := <[fn := json_dumps result]> (files w);
              trace := trace w ++ [Stdout ("saving final result to " +:+ fn)] |}) /\
  (forall e, denied (files w) fn = Some e ->
   save_to_file goal result w =
     Raise e {| files := files w;
                trace := trace w ++ [Stdout ("saving final result to " +:+ fn)] |}) /\
  String.length stem = String.length goal /\
  (forall i, String.get i stem =
             (fun c => if Ascii.eqb c " " then "_"%char else c) <$> String.get i goal) /\
  (forall i, String.get i stem <> Some " "%char).
Proof.
  intros stem fn.
  assert (Hne : fn <> "") by (apply append_nonempty; discriminate).
  split; [ | split; [ | split; [ | split ] ] ].
  - intros Hd. unfold save_to_file, bind, print, emit. fold stem. fold fn.
    rewrite write_json_ok; [ reflexivity | exact Hne | exact Hd ].
  - intros e Hd. unfold save_to_file, bind, print, emit. fold stem. fold fn.
    rewrite (write_json_denied fn result _ e); [ reflexivity | exact Hne | exact Hd ].
  - apply length_replace.
  - intros i. apply get_replace.
  - intros i. unfold stem. rewrite get_replace.
    destruct (String.get i goal) as [c | ]; simpl; [ | discriminate ].
    destruct (Ascii.eqb_spec c " "); congruence.
Qed.

(** ** The statements at sample inputs *)

Import Examples Samples.



Lemma missing_file_is_empty_state_witness :
  exists tm w',
    __init__ "list three colors" [] true (JList [JStr "a"]) JNull true
             (JDict [("a", JStr "done")]) (Some "state.json") false no_files
    = Ok tm w' /\
    files w' = files no_files /\
    stored_info tm = JDict [] /\ final_result tm = JDict [] /\
    current_tasks tm = JList [] /\ completed_tasks tm = JDict [].
Proof.
  apply (missing_file_is_empty_state "list three colors" [] true (JList [JStr "a"])
           JNull true (JDict [("a", JStr "done")]) "state.json" false no_files);
    [ discriminate | reflexivity ].
Defined.

Lemma save_persist_document_witness :
  (exists w',
     _save_persist colors_manager no_files = Ok tt w' /\
     files w' !! "state.json" = Some (json_dumps (saved_state colors_manager))) /\
  _save_persist nodir_manager no_directory = Raise FileNotFoundError no_directory.
Proof.
  split.
  - destruct (save_persist_document colors_manager no_files "state.json")
      as (_ & H); [ reflexivity | discriminate | ].
    destruct (H eq_refl) as (w' & Hs & Hf & _).
    exists w'. split; [ exact Hs | exact Hf ].
  - apply (save_persist_document nodir_manager no_directory "nodir/state.json");
      [ reflexivity | discriminate | reflexivity ].
Defined.

Lemma save_to_file_spec_witness :
  save_to_file "list three colors" (JList [JStr "red"]) no_files =
    Ok tt {| files := <["list_three_colors.result.txt" :=
                        json_dumps (JList [JStr "red"])]> (files no_files);
             trace := [Stdout "saving final result to list_three_colors.result.txt"] |} /\
  save_to_file "nodir/list colors" JNull no_directory =
    Raise FileNotFoundError
      {| files := files no_directory;
         trace := [Stdout "saving final result to nodir/list_colors.result.txt"] |}.
Proof.
  split.
  - apply (save_to_file_spec "list three colors" (JList [JStr "red"]) no_files).
    reflexivity.
  - apply (save_to_file_spec "nodir/list colors" JNull no_directory).
    reflexivity.
Defined.

(** C5 as stated fails: without a persistence path the manager starts
    with the tasks and the result the caller passed, not with empty
    state; and with a file that does not hold JSON, construction raises
    and no tool listing is built. *)
Lemma init_state_counterexample :
  (exists tm,
     __init__ "list three colors" [] true (JList [JStr "a"])
              (JDict [("k", JInt 1)]) true JNull None false no_files
     = Ok tm no_files /\
     current_tasks tm = JList [JStr "a"] /\ current_tasks tm <> JList [] /\
     final_result tm = JDict [("k", JInt 1)] /\ final_result tm <> JDict []) /\
  __init__ "list three colors" [] true JNull JNull true JNull (Some "state.json") false
           {| files := {[ "state.json" := "oops" ]}; trace := [] |}
  = Raise JSONDecodeError {| files := {[ "state.json" := "oops" ]}; trace := [] |}.
Proof.
  split; [ | reflexivity ].
  eexists. split; [ reflexivity | ]. repeat split; discriminate.
Defined.

Lemma init_state_witness :
  (exists tm,
     __init__ "list three colors" [] true (JList [JStr "a"]) JNull true JNull
              None false no_files = Ok tm no_files /\
     current_tasks tm = JList [JStr "a"] /\ stored_info tm = JDict []) /\
  (exists tm w',
     __init__ "list three colors" [] true (JList [JStr "a"]) JNull true JNull
              (Some "state.json") false no_files = Ok tm w' /\
     current_tasks tm = JList []) /\
  (exists tm w',
     __init__ "list three colors" [] true JNull JNull true JNull
              (Some "state.json") false one_file = Ok tm w' /\
     current_tasks tm = JList [JStr "a"] /\
     stored_info tm = JDict [("k", JInt 1)] /\ final_result tm = JDict []).
Proof.
  split; [ | split ].
  - destruct (init_state "list three colors" [] true (JList [JStr "a"]) JNull true
                JNull None false no_files) as (H & _).
    destruct (H eq_refl) as (tm & Hi & Hc & _ & _ & Hs & _).
    exists tm. auto.
  - destruct (init_state "list three colors" [] true (JList [JStr "a"]) JNull true
                JNull (Some "state.json") false no_files) as (_ & H & _).
    destruct (H "state.json" eq_refl) as (tm & w' & Hi & _ & _ & Hc & _);
      [ discriminate | reflexivity | ].
    exists tm, w'. auto.
  - destruct (init_state "list three colors" [] true JNull JNull true
                JNull (Some "state.json") false one_file) as (_ & _ & H & _).
    destruct (H "state.json" partial_state
                [("current_tasks", JList [JStr "a"]); ("stored_info", JDict [("k", JInt 1)])]
                eq_refl)
      as (tm & w' & Hi & Hs & Hf & Hc & _);
      [ discriminate | reflexivity | vm_compute; reflexivity | ].
    exists tm, w'. auto.
Defined.

Lemma init_discards_arguments_witness :
  __init__ "list three colors" [] true (JList [JStr "a"]) (JDict [("k", JInt 1)])
           true (JDict [("a", JStr "done")]) (Some "state.json") false one_file
  = __init__ "list three colors" [] true JNull JNull true JNull
             (Some "state.json") false one_file /\
  exists tm w',
    __init__ "list three colors" [] true (JList [JStr "a"]) (JDict [("k", JInt 1)])
             true (JDict [("a", JStr "done")]) (Some "state.json") false no_files
    = Ok tm w' /\
    stored_info tm = JDict [] /\ final_result tm = JDict [] /\
    current_tasks tm = JList [] /\ completed_tasks tm = JDict [].
Proof.
  split.
  - apply (init_discards_arguments "list three colors" [] true (JList [JStr "a"])
             (JDict [("k", JInt 1)]) true (JDict [("a", JStr "done")])
             (Some "state.json") false one_file).
    reflexivity.
  - destruct (init_discards_arguments "list three colors" [] true (JList [JStr "a"])
                (JDict [("k", JInt 1)]) true (JDict [("a", JStr "done")])
                (Some "state.json") false no_files) as (_ & H & _).
    apply (H "state.json"); reflexivity.
Defined.

End TMClaims.

(* ===================================================================== *)
(** * Facts about the task loop *)
(* ===================================================================== *)

Module LoopFacts.
Import TM Loop.

Lemma executed_app (a b : list (prompt * string)) :
  executed (a ++ b) = executed a ++ executed b.
Proof.
  induction a as [ | [[] text] a IH ]; simpl; try exact IH; [ reflexivity | ].
  now rewrite IH.
Qed.

Lemma dict_mem_keys (k : string) (d : dict) :
  dict_mem k d = true <-> k ∈ keys d.
Proof.
  unfold dict_mem, keys. induction d as [ | [k' v] d IH ]; simpl.
  - split; [ discriminate | intros H; inversion H ].
  - destruct (String.eqb_spec k k') as [-> | Hne].
    + split; [ intros _; left | reflexivity ].
    + rewrite IH. split; [ intros H; now right | ].
      intros H. apply elem_of_cons in H as [H | H]; [ congruence | exact H ].
Qed.

Lemma keys_dict_set (k : string) (v : json) (d : dict) (t : string) :
  t ∈ keys (dict_set k v d) <-> t = k \/ t ∈ keys d.
Proof.
  unfold keys. induction d as [ | [k' v'] d IH ]; simpl.
  - rewrite list_elem_of_singleton. split; [ auto | ].
    intros [H | H]; [ exact H | inversion H ].
  - destruct (String.eqb_spec k k') as [-> | Hne]; simpl.
    + rewrite !elem_of_cons. tauto.
    + rewrite !elem_of_cons, IH. tauto.
Qed.

Section WithModel.
Context {LLM : Type}.
Variable llm_call : LLM -> prompt -> string * LLM.
Variable max_retries : nat.

Lemma ask_spec (p : prompt) (st : state LLM) :
  exists text m,
    ask llm_call p st =
    (text, {| self := self st; env := env st; model := m;
              asked := asked st ++ [(p, text)] |}).
Proof. unfold ask. destruct (llm_call (model st) p) as [text m]. eauto. Qed.

(** The repair step touches neither the manager nor the world; it
    extends the transcript by a chain of repairs, at most [k] long, and
    yields what the last text parses to. *)
Lemma repairJson_spec (k : nat) (bad : string) (st : state LLM) :
  json_loads bad = None ->
  exists log,
    self (snd (repairJson llm_call k bad st)) = self st /\
    env (snd (repairJson llm_call k bad st)) = env st /\
    asked (snd (repairJson llm_call k bad st)) = asked st ++ log /\
    repairs_of bad log /\ length log <= k /\ executed log = [] /\
    fst (repairJson llm_call k bad st) = json_loads (last_text bad log) /\
    (fst (repairJson llm_call k bad st) = None -> length log = k).
Proof.
  revert bad st. induction k as [ | k IH ]; intros bad st Hbad.
  - exists []. simpl. rewrite app_nil_r. repeat split; auto.
  - cbn [repairJson].
    destruct (ask_spec (RepairPrompt bad) st) as (text & m & ->).
    destruct (json_loads text) as [j | ] eqn:Hj.
    + exists [(RepairPrompt bad, text)]. simpl. rewrite Hj.
      repeat split; auto; try lia. discriminate.
    + match goal with
      | |- context [ repairJson _ k text ?st1 ] =>
          destruct (IH text st1 Hj) as (log & Hs & He & Ha & Hr & Hl & Hx & Hf & Hn)
      end.
      exists ((RepairPrompt bad, text) :: log). cbn [self env asked] in *.
      rewrite Hs, He, Ha, Hf. rewrite <- app_assoc. simpl.
      repeat split; auto; try lia.
      intros H. rewrite <- Hf in H. specialize (Hn H). lia.
Qed.

Lemma parse_response_spec (text : string) (st : state LLM) :
  exists log,
    self (snd (parse_response llm_call max_retries text st)) = self st /\
    env (snd (parse_response llm_call max_retries text st)) = env st /\
    asked (snd (parse_response llm_call max_retries text st)) = asked st ++ log /\
    repairs_of text log /\ length log <= max_retries /\ executed log = [] /\
    fst (parse_response llm_call max_retries text st) =
      json_loads (last_text text log) /\
    (fst (parse_response llm_call max_retries text st) = None ->
     length log = max_retries).
Proof.
  unfold parse_response. destruct (json_loads text) as [j | ] eqn:Hj.
  - exists []. simpl. rewrite app_nil_r, Hj. repeat split; auto; try lia.
    discriminate.
  - apply repairJson_spec, Hj.
Qed.

End WithModel.

End LoopFacts.

(* ===================================================================== *)
(** * The task loop: repeat policy, completion, malformed responses *)
(* ===================================================================== *)

Module LoopClaims.
Import TM Loop LoopFacts.

Section WithModel.
Context {LLM : Type}.
Variable llm_call : LLM -> prompt -> string * LLM.
Variable max_retries : nat.

(** The create step, whatever the model answers. *)
Lemma createInitialTasks_spec (st : state LLM) :
  let r := createInitialTasks llm_call max_retries st in
  exists text log,
    asked (after r) =
      asked st ++
      (CreatePrompt (final_goal (self st)) (tools_str (self st)), text) :: log /\
    repairs_of text log /\ length log <= max_retries /\ executed log = [] /\
    env (after r) = env st /\
    match json_loads (last_text text log) with
    | Some j => r = Next tt (after r) /\ self (after r) = apply_create j (self st)
    | None =>
        r = Fatal MalformedResponse (after r) /\ self (after r) = self st /\
        length log = max_retries
    end.
Proof.
  intros r. subst r. unfold createInitialTasks.
  destruct (ask_spec llm_call
              (CreatePrompt (final_goal (self st)) (tools_str (self st))) st)
    as (text & m & ->).
  match goal with
  | |- context [ parse_response _ _ text ?st1 ] =>
      destruct (parse_response_spec llm_call max_retries text st1)
        as (log & Hs & He & Ha & Hr & Hl & Hx & Hf & Hn);
      destruct (parse_response llm_call max_retries text st1) as [res st2]
  end.
  cbn [fst snd self env asked] in *. exists text, log.
  rewrite <- Hf. destruct res as [j | ]; cbn [after with_self self env asked];
    rewrite Ha, <- app_assoc; repeat split; auto.
  now rewrite Hs.
Qed.

(** The refine step, whatever the model answers. *)
Lemma refine_spec (task result : string) (st : state LLM) :
  let r := refine llm_call max_retries task result st in
  exists text log,
    asked (after r) = asked st ++ (RefinePrompt task result, text) :: log /\
    repairs_of text log /\ length log <= max_retries /\ executed log = [] /\
    match json_loads (last_text text log) with
    | Some j =>
        match completed_tasks (self st) with
        | JDict done =>
            r = Next tt (after r) /\
            self (after r) = apply_refine j task result done (self st) /\
            env (after r) = echo_thoughts j (env st)
        | _ =>
            r = Fatal TypeError (after r) /\ self (after r) = self st /\
            env (after r) = env st
        end
    | None =>
        r = Fatal MalformedResponse (after r) /\ self (after r) = self st /\
        env (after r) = env st /\ length log = max_retries
    end.
Proof.
  intros r. subst r. unfold refine.
  destruct (ask_spec llm_call (RefinePrompt task result) st) as (text & m & ->).
  match goal with
  | |- context [ parse_response _ _ text ?st1 ] =>
      destruct (parse_response_spec llm_call max_retries text st1)
        as (log & Hs & He & Ha & Hr & Hl & Hx & Hf & Hn);
      destruct (parse_response llm_call max_retries text st1) as [res st2]
  end.
  cbn [fst snd self env asked] in *. exists text, log.
  rewrite <- Hf. destruct res as [j | ].
  - rewrite Hs. destruct (completed_tasks (self st));
      cbn [after self env asked]; rewrite Ha, <- app_assoc, ?He; repeat split; auto.
  - cbn [after self env asked]. rewrite Ha, <- app_assoc. repeat split; auto.
Qed.

(** Taking the next task off the queue. *)
Lemma executeNextTask_spec (st : state LLM) :
  match executeNextTask llm_call st with
  | Fatal e st' => st' = st
  | Next (Skipped t) st' =>
      asked st' = asked st /\
      allow_repeat_tasks (self st') = allow_repeat_tasks (self st) /\
      completed_tasks (self st') = completed_tasks (self st) /\
      allow_repeat_tasks (self st) = false /\ t ∈ completed_keys (self st)
  | Next (Executed t text) st' =>
      (exists goal remaining info res,
         asked st' = asked st ++ [(TaskPrompt goal remaining info res t, text)]) /\
      allow_repeat_tasks (self st') = allow_repeat_tasks (self st) /\
      completed_tasks (self st') = completed_tasks (self st) /\
      (allow_repeat_tasks (self st) = false -> t ∉ completed_keys (self st))
  end.
Proof.
  unfold executeNextTask.
  destruct (current_tasks (self st)) as [ | | | | [ | [ | | | task | | ] remaining ] | ];
    try reflexivity.
  destruct (negb (allow_repeat_tasks (self st)) && already_completed task (self st))
    eqn:Hc.
  - apply andb_true_iff in Hc as [Hallow Hdone].
    apply negb_true_iff in Hallow. repeat split; auto.
    unfold already_completed in Hdone. unfold completed_keys.
    destruct (completed_tasks (self st)); try discriminate.
    now apply dict_mem_keys.
  - match goal with
    | |- context [ ask _ ?p ?st1 ] => destruct (ask_spec llm_call p st1) as (text & m & ->)
    end.
    cbn [self asked with_self]. repeat split; eauto.
    intros Hallow. rewrite Hallow in Hc. cbn [negb andb] in Hc.
    unfold already_completed in Hc. unfold completed_keys.
    destruct (completed_tasks (self st)); try (intros H; inversion H; fail).
    intros Hin. apply dict_mem_keys in Hin. congruence.
Qed.

Lemma persist_state_spec (st : state LLM) :
  self (after (persist_state st)) = self st /\
  asked (after (persist_state st)) = asked st.
Proof.
  unfold persist_state. destruct (persist_set (persist (self st))); [ | split; reflexivity ].
  destruct (_save_persist (self st) (env st)); split; reflexivity.
Qed.

(** With repeats disallowed, the tasks executed from a state on are
    pairwise different and none of them is a key of CompletedTasks in
    that state. *)
Lemma loop_no_repeat (fuel : nat) (st : state LLM) :
  allow_repeat_tasks (self st) = false ->
  exists new,
    asked (final (loop llm_call max_retries fuel st)) = asked st ++ new /\
    NoDup (executed new) /\
    forall t, t ∈ executed new -> t ∉ completed_keys (self st).
Proof.
  revert st. induction fuel as [ | fuel IH ]; intros st Hallow.
  - exists []. cbn [loop]. destruct (continues (self st)); cbn [final complete with_env asked];
      rewrite app_nil_r; repeat split; try constructor; intros t Ht; inversion Ht.
  - cbn [loop]. destruct (continues (self st)).
    2: { exists []. cbn [final complete with_env asked]. rewrite app_nil_r.
         repeat split; try constructor; intros t Ht; inversion Ht. }
    pose proof (executeNextTask_spec st) as Hex.
    destruct (executeNextTask llm_call st) as [[t | t text] st1 | e st1].
    + destruct Hex as (Ha & Hal & Hc & _ & _).
      destruct (IH st1) as (new & Hn & Hnd & Hk); [ congruence | ].
      exists new. rewrite Hn, Ha. repeat split; auto.
      intros x Hx. unfold completed_keys in *. rewrite <- Hc. auto.
    + destruct Hex as ((goal & remaining & info & res & Ha) & Hal & Hc & Hfresh).
      specialize (Hfresh Hallow).
      pose proof (refine_spec t text st1) as (rtext & log & Hra & _ & _ & Hrx & Hr).
      destruct (refine llm_call max_retries t text st1) as [[] st2 | e st2];
        cbn [after] in *.
      * destruct (json_loads (last_text rtext log)) as [j | ];
          [ | destruct Hr as [? _]; discriminate ].
        destruct (completed_tasks (self st1)) as [ | | | | | done ] eqn:Hdone;
          try (destruct Hr as [? _]; discriminate).
        destruct Hr as (_ & Hself & _).
        pose proof (persist_state_spec st2) as [Hps Hpa].
        assert (Hfin : exists new,
                   asked (final match persist_state st2 with
                                | Next _ st3 => loop llm_call max_retries fuel st3
                                | Fatal e st3 => Failed e st3
                                end) = asked st2 ++ new /\
                   NoDup (executed new) /\
                   forall x, x ∈ executed new -> x ∉ completed_keys (self st2)).
        { destruct (persist_state st2) as [[] st3 | e st3]; cbn [after] in *.
          - destruct (IH st3) as (new & Hn & Hnd & Hk).
            + rewrite Hps, Hself. cbn [allow_repeat_tasks apply_refine]. congruence.
            + exists new. rewrite Hn, Hpa. repeat split; auto.
              intros x Hx. rewrite <- Hps. auto.
          - exists []. cbn [final]. rewrite Hpa, app_nil_r.
            repeat split; try constructor; intros x Hx; inversion Hx. }
        destruct Hfin as (new & Hn & Hnd & Hk).
        exists ((TaskPrompt goal remaining info res t, text)
                  :: (RefinePrompt t text, rtext) :: log ++ new).
        rewrite Hn, Hra, Ha. rewrite <- !app_assoc. cbn [app].
        split; [ reflexivity | ].
        cbn [executed]. rewrite executed_app, Hrx. cbn [app].
        assert (Hkeys : forall x, x ∈ completed_keys (self st2) <->
                                  x = t \/ x ∈ completed_keys (self st)).
        { intros x. unfold completed_keys. rewrite Hself, <- Hc.
          cbn [completed_tasks apply_refine]. apply keys_dict_set. }
        split.
        -- constructor; [ | exact Hnd ].
           intros Hin. apply (Hk t Hin). apply Hkeys. now left.
        -- intros x Hx. apply elem_of_cons in Hx as [-> | Hx]; [ exact Hfresh | ].
           intros Hin. apply (Hk x Hx). apply Hkeys. now right.
      * exists ((TaskPrompt goal remaining info res t, text)
                  :: (RefinePrompt t text, rtext) :: log).
        cbn [final]. rewrite Hra, Ha. rewrite <- !app_assoc. cbn [app].
        split; [ reflexivity | ].
        cbn [executed]. rewrite Hrx.
        split; [ constructor; [ intros H; inversion H | constructor ] | ].
        intros x Hx. apply list_elem_of_singleton in Hx as ->. exact Hfresh.
    + subst st1. exists []. cbn [final]. rewrite app_nil_r.
      repeat split; try constructor; intros t Ht; inversion Ht.
Qed.


(** C2. With allowRepeatTasks false, a task that is a key of
    CompletedTasks is skipped when it comes first in the queue, without
    a prompt being sent; and over a whole run, however long, no task
    that is a key of CompletedTasks at the start is executed and no
    task is executed twice. *)
Theorem completed_tasks_not_repeated (fuel : nat) (st : state LLM) :
  allow_repeat_tasks (self st) = false ->
  (forall task remaining,
     current_tasks (self st) = JList (JStr task :: remaining) ->
     task ∈ completed_keys (self st) ->
     executeNextTask llm_call st =
     Next (Skipped task) (with_self st (set_tasks (self st) (JList remaining)))) /\
  exists new,
    asked (final (run llm_call max_retries fuel st)) = asked st ++ new /\
    NoDup (executed new) /\
    forall t, t ∈ executed new -> t ∉ completed_keys (self st).
Proof.
  intros Hallow. split.
  - intros task remaining Hq Hin. unfold executeNextTask. rewrite Hq, Hallow.
    unfold completed_keys in Hin. unfold already_completed.
    destruct (completed_tasks (self st)); try (inversion Hin; fail).
    apply dict_mem_keys in Hin. rewrite Hin. reflexivity.
  - unfold run.
    destruct (truthy (current_tasks (self st)) || goal_completed (self st)).
    + apply loop_no_repeat, Hallow.
    + pose proof (createInitialTasks_spec st) as (text & log & Ha & _ & _ & Hx & _ & Hr).
      destruct (createInitialTasks llm_call max_retries st) as [[] st1 | e st1];
        cbn [after] in *.
      * destruct (json_loads (last_text text log)) as [j | ];
          [ | destruct Hr as [? _]; discriminate ].
        destruct Hr as [_ Hself].
        assert (Hsame : allow_repeat_tasks (self st1) = false /\
                        completed_keys (self st1) = completed_keys (self st)).
        { rewrite Hself. unfold apply_create, completed_keys.
          destruct (field j "current_tasks"); auto. }
        destruct Hsame as [Hal Hkeys].
        destruct (loop_no_repeat fuel st1 Hal) as (new & Hn & Hnd & Hk).
        exists ((CreatePrompt (final_goal (self st)) (tools_str (self st)), text)
                  :: log ++ new).
        rewrite Hn, Ha, <- !app_assoc. cbn [app executed].
        rewrite executed_app, Hx. cbn [app].
        repeat split; auto. intros t Ht. rewrite <- Hkeys. auto.
      * exists ((CreatePrompt (final_goal (self st)) (tools_str (self st)), text) :: log).
        cbn [final executed]. rewrite Hx.
        repeat split; auto; [ constructor | intros t Ht; inversion Ht ].
Qed.



End WithModel.

(** ** The statements at sample inputs *)

Import Examples.

Lemma completed_tasks_not_repeated_witness :
  allow_repeat_tasks (manager ["list three colors"; "pick one"]
                              [("list three colors", JStr "red")] false) = false /\
  exists new,
    asked (final (run planner 2 10
                    (start (manager ["list three colors"; "pick one"]
                                    [("list three colors", JStr "red")] false) 0)))
    = [] ++ new /\
    NoDup (executed new) /\
    forall t, t ∈ executed new -> t ∉ ["list three colors"].
Proof.
  split; [ reflexivity | ].
  apply (completed_tasks_not_repeated planner 2 10
           (start (manager ["list three colors"; "pick one"]
                           [("list three colors", JStr "red")] false) 0)).
  reflexivity.
Defined.



End LoopClaims.


(* ===================================================================== *)
(** * More facts about the json module *)
(* ===================================================================== *)

Module JsonMore.
Import JsonFacts LoopFacts.

#[local] Arguments String.append !_ _ / : simpl nomatch.

Lemma nodup_dict_set (k : string) (v : json) (d : dict) :
  NoDup (keys d) -> NoDup (keys (dict_set k v d)).
Proof.
  unfold keys. induction d as [ | [k' v'] d IH ]; simpl; intros Hnd.
  - constructor; [ intros H; inversion H | constructor ].
  - apply NoDup_cons in Hnd as [Hk Hnd].
    destruct (String.eqb_spec k k') as [-> | Hne]; simpl.
    + constructor; assumption.
    + constructor; [ | apply IH, Hnd ].
      intros Hin. apply (keys_dict_set k v d k') in Hin as [Hin | Hin];
        [ congruence | exact (Hk Hin) ].
Qed.

Lemma forall_dict_set (P : json -> Prop) (k : string) (v : json) (d : dict) :
  P v -> Forall (fun kv => P (snd kv)) d ->
  Forall (fun kv => P (snd kv)) (dict_set k v d).
Proof.
  intros Hv. induction d as [ | [k' v'] d IH ]; simpl; intros Hd.
  - constructor; [ exact Hv | constructor ].
  - apply Forall_cons in Hd as [Hv' Hd].
    destruct (String.eqb k k'); constructor; auto.
Qed.

Lemma dict_of_pairs_wf (ps : list (string * json)) :
  Forall (fun kv => wf_json (snd kv)) ps -> wf_json (JDict (dict_of_pairs ps)).
Proof.
  intros Hps. apply wf_json_dict. unfold dict_of_pairs.
  assert (H : forall acc : dict,
             NoDup (keys acc) -> Forall (fun kv => wf_json (snd kv)) acc ->
             NoDup (keys (fold_left (fun d kv => dict_set (fst kv) (snd kv) d) ps acc)) /\
             Forall (fun kv => wf_json (snd kv))
                    (fold_left (fun d kv => dict_set (fst kv) (snd kv) d) ps acc)).
  { induction Hps as [ | [k v] ps Hv _ IH ]; intros acc Hnd Hacc; simpl; [ auto | ].
    apply IH; [ apply nodup_dict_set, Hnd | apply forall_dict_set; assumption ]. }
  apply H; constructor.
Qed.

Lemma scan_items_wf (pv : string -> option (json * string)) :
  (forall s v r, pv s = Some (v, r) -> wf_json v) ->
  forall k s vs r, scan_items pv k s = Some (vs, r) -> Forall wf_json vs.
Proof.
  intros Hpv. induction k as [ | k IH ]; intros s vs r H; [ discriminate | ].
  cbn [scan_items] in H.
  destruct (pv s) as [[v r1] | ] eqn:E; [ | discriminate ].
  destruct (skip_ws r1) as [ | c r2 ]; [ discriminate | ].
  destruct (Ascii.eqb c "]").
  - injection H as <- <-. constructor; eauto.
  - destruct (Ascii.eqb c ","); [ | discriminate ].
    destruct (scan_items pv k (skip_ws r2)) as [[vs' r3] | ] eqn:E2; [ | discriminate ].
    injection H as <- <-. constructor; eauto.
Qed.

Lemma scan_pairs_wf (pv : string -> option (json * string)) :
  (forall s v r, pv s = Some (v, r) -> wf_json v) ->
  forall k s ps r, scan_pairs pv k s = Some (ps, r) ->
                   Forall (fun kv => wf_json (snd kv)) ps.
Proof.
  intros Hpv. induction k as [ | k IH ]; intros s ps r H; [ discriminate | ].
  cbn [scan_pairs] in H.
  destruct s as [ | q s1 ]; [ discriminate | ].
  destruct (Ascii.eqb q dquote); [ | discriminate ].
  destruct (scanstring s1) as [[key r0] | ]; [ | discriminate ].
  destruct (skip_ws r0) as [ | c r1 ]; [ discriminate | ].
  destruct (Ascii.eqb c ":"); [ | discriminate ].
  destruct (pv (skip_ws r1)) as [[v r2] | ] eqn:E; [ | discriminate ].
  destruct (skip_ws r2) as [ | c' r3 ]; [ discriminate | ].
  destruct (Ascii.eqb c' "}").
  - injection H as <- <-. constructor; [ simpl; eauto | constructor ].
  - destruct (Ascii.eqb c' ","); [ | discriminate ].
    destruct (scan_pairs pv k (skip_ws r3)) as [[ps' r4] | ] eqn:E2; [ | discriminate ].
    injection H as <- <-. constructor; [ simpl; eauto | eauto ].
Qed.

(** The scanner never yields a dict that holds a key twice. *)
Lemma scan_wf (n : nat) :
  forall s v r, scan n s = Some (v, r) -> wf_json v.
Proof.
  induction n as [ | n IH ]; intros s v r H; [ discriminate | ].
  cbn [scan] in H. destruct s as [ | c s' ]; [ discriminate | ].
  destruct (Ascii.eqb c dquote).
  { destruct (scanstring s') as [[str rest] | ]; [ | discriminate ].
    injection H as <- <-. exact I. }
  destruct (Ascii.eqb c "{").
  { destruct (skip_ws s') as [ | c' r' ]; [ discriminate | ].
    destruct (Ascii.eqb c' "}"); [ injection H as <- <-; apply wf_json_dict; split; constructor | ].
    destruct (scan_pairs (scan n) n (String c' r')) as [[ps rest] | ] eqn:E; [ | discriminate ].
    injection H as <- <-. apply dict_of_pairs_wf. eapply scan_pairs_wf; eauto. }
  destruct (Ascii.eqb c "[").
  { destruct (skip_ws s') as [ | c' r' ]; [ discriminate | ].
    destruct (Ascii.eqb c' "]"); [ injection H as <- <-; exact I | ].
    destruct (scan_items (scan n) n (String c' r')) as [[vs rest] | ] eqn:E; [ | discriminate ].
    injection H as <- <-. apply wf_json_list. eapply scan_items_wf; eauto. }
  destruct (Ascii.eqb c "n").
  { destruct (strip_prefix "ull" s'); [ | discriminate ]. injection H as <- <-. exact I. }
  destruct (Ascii.eqb c "t").
  { destruct (strip_prefix "rue" s'); [ | discriminate ]. injection H as <- <-. exact I. }
  destruct (Ascii.eqb c "f").
  { destruct (strip_prefix "alse" s'); [ | discriminate ]. injection H as <- <-. exact I. }
  unfold scan_number in H.
  destruct (Ascii.eqb c "-").
  - destruct (scan_uint s') as [[u rest] | ]; [ | discriminate ].
    destruct (float_follows rest); [ discriminate | ]. injection H as <- <-. exact I.
  - destruct (scan_uint (String c s')) as [[u rest] | ]; [ | discriminate ].
    destruct (float_follows rest); [ discriminate | ]. injection H as <- <-. exact I.
Qed.

Lemma json_loads_wf (text : string) (v : json) :
  json_loads text = Some v -> wf_json v.
Proof.
  unfold json_loads.
  destruct (scan (String.length (skip_ws text)) (skip_ws text)) as [[v' rest] | ] eqn:E;
    [ | discriminate ].
  destruct (skip_ws rest); [ | discriminate ].
  intros [= <-]. eapply scan_wf, E.
Qed.


Lemma replace_idempotent (s : string) :
  replace " " "_" (replace " " "_" s) = replace " " "_" s.
Proof.
  induction s as [ | c s IH ]; simpl; [ reflexivity | ]. rewrite IH. f_equal.
  destruct (Ascii.eqb_spec c " ") as [-> | Hne]; [ reflexivity | ].
  now rewrite (proj2 (Ascii.eqb_neq c " ") Hne).
Qed.

Lemma join_cons (sep p : string) (ps : list string) :
  ps <> [] -> join sep (p :: ps) = p +:+ sep +:+ join sep ps.
Proof. destruct ps; [ congruence | reflexivity ]. Qed.

Lemma join_app (sep : string) (a b : list string) :
  a <> [] -> b <> [] ->
  join sep (a ++ b) = join sep a +:+ sep +:+ join sep b.
Proof.
  intros Ha Hb. induction a as [ | p a IH ]; [ congruence | ].
  destruct a as [ | p' a ].
  - simpl app. rewrite join_cons by exact Hb. reflexivity.
  - change ((p :: p' :: a) ++ b) with (p :: (p' :: a) ++ b).
    rewrite join_cons by discriminate. rewrite IH by discriminate.
    rewrite (join_cons sep p (p' :: a)) by discriminate.
    now rewrite !append_assoc.
Qed.

End JsonMore.

(* ===================================================================== *)
(** * More about persistence and construction *)
(* ===================================================================== *)

Module TMMore.
Import TM JsonFacts TMFacts JsonMore Consts.


Lemma load_persist_other (self : TaskManager) (w : world) (path text : string) (v : json) :
  persist self = Some path -> files w !! path = Some text ->
  json_loads text = Some v -> (forall d, v <> JDict d) ->
  _load_persist self w =
  Raise AttributeError
        {| files := files w;
           trace := trace w ++ [Output ("[system] Loaded stored info from: " +:+ path)] |}.
Proof.
  intros Hp Hf Hj Hv. unfold _load_persist, bind, path_exists. rewrite Hp.
  rewrite bool_decide_eq_true_2 by (rewrite Hf; eauto).
  unfold read_json. rewrite Hf, Hj.
  destruct v; try reflexivity. exfalso. eapply Hv. reflexivity.
Qed.

(** [__init__] with a path: the manager built before the load, and what
    the load makes of it. *)
Lemma init_with_path
    (goal : string) (tools0 : list descriptor) (verbose0 : bool)
    (current_tasks0 final_result0 : json) (allow : bool) (completed_tasks0 : json)
    (path : string) (confirm : bool) (w : world) :
  path <> "" ->
  exists self0,
    persist self0 = Some path /\ tools self0 = tools0 /\ final_goal self0 = goal /\
    verbose self0 = verbose0 /\ allow_repeat_tasks self0 = allow /\
    confirm_tool self0 = confirm /\ goal_completed self0 = false /\
    __init__ goal tools0 verbose0 current_tasks0 final_result0 allow
             completed_tasks0 (Some path) confirm w =
    match _load_persist self0 w with
    | Ok self w' =>
        Ok {| final_goal := final_goal self; tools := tools self;
              verbose := verbose self; allow_repeat_tasks := allow_repeat_tasks self;
              completed_tasks := completed_tasks self; persist := persist self;
              confirm_tool := confirm_tool self; current_tasks := current_tasks self;
              final_result := final_result self; stored_info := stored_info self;
              tools_str := _make_tools_str (tools self);
              goal_completed := goal_completed self |} w'
    | Raise e w' => Raise e w'
    end.
Proof.
  intros Hne.
  exists {| final_goal := goal; tools := tools0; verbose := verbose0;
            allow_repeat_tasks := allow;
            completed_tasks := py_or completed_tasks0 (JDict []);
            persist := Some path; confirm_tool := confirm;
            current_tasks := py_or current_tasks0 (JList []);
            final_result := py_or final_result0 (JDict []);
            stored_info := JDict []; tools_str := ""; goal_completed := false |}.
  repeat split.
  unfold __init__, bind. cbn [persist_set]. rewrite (eqb_empty_false _ Hne).
  cbn [negb]. reflexivity.
Qed.

(** What [_load_persist] does to the world and to the other fields. *)
Lemma load_persist_effect (self : TaskManager) (w : world) :
  files (world_of (_load_persist self w)) = files w /\
  at_most_one_output (trace w) (trace (world_of (_load_persist self w))) /\
  forall self' w',
    _load_persist self w = Ok self' w' ->
    same_settings self' self /\ exists line, trace w' = trace w ++ [Output line].
Proof.
  unfold _load_persist, bind, path_exists, read_json, output_func, emit, ret, raise,
    at_most_one_output.
  assert (Hcase : forall r : result TaskManager,
             files (world_of r) = files w ->
             (trace (world_of r) = trace w \/
              exists line, trace (world_of r) = trace w ++ [Output line]) ->
             (forall self' w', r = Ok self' w' ->
                same_settings self' self /\ exists line, trace w' = trace w ++ [Output line]) ->
             files (world_of r) = files w /\
             (trace (world_of r) = trace w \/
              exists line, trace (world_of r) = trace w ++ [Output line]) /\
             forall self' w', r = Ok self' w' ->
               same_settings self' self /\ exists line, trace w' = trace w ++ [Output line])
    by auto.
  destruct (persist self) as [path | ];
    [ | apply Hcase; [ reflexivity | now left | discriminate ] ].
  destruct (files w !! path) as [text | ] eqn:Hf.
  - rewrite bool_decide_eq_true_2 by eauto. rewrite Hf.
    destruct (json_loads text) as [[ | | | | | d] | ]; apply Hcase;
      try reflexivity; try (right; eexists; reflexivity); try (now left);
      try discriminate.
    intros self' w' [= <- <-]. split; [ repeat split | eexists; reflexivity ].
  - rewrite bool_decide_eq_false_2 by (intros [x Hx]; discriminate).
    apply Hcase; try reflexivity; try (right; eexists; reflexivity).
    intros self' w' [= <- <-]. split; [ repeat split | eexists; reflexivity ].
Qed.

(** A load that ends normally assigned the values of some object that
    holds no key twice (the empty one when there is no file). *)
Lemma load_persist_ok_inv (self loaded : TaskManager) (w w' : world) :
  _load_persist self w = Ok loaded w' ->
  exists d, loaded = set_loaded self d /\ wf_json (JDict d) /\ files w' = files w.
Proof.
  unfold _load_persist, bind, path_exists, read_json, output_func, emit, ret, raise.
  destruct (persist self) as [path | ]; [ | discriminate ].
  destruct (files w !! path) as [text | ] eqn:Hf.
  - rewrite bool_decide_eq_true_2 by eauto. rewrite Hf.
    destruct (json_loads text) as [[ | | | | | d] | ] eqn:Hj; try discriminate.
    intros [= <- <-]. exists d.
    split; [ reflexivity | split; [ apply (json_loads_wf _ _ Hj) | reflexivity ] ].
  - rewrite bool_decide_eq_false_2 by (intros [x Hx]; discriminate).
    intros [= <- <-]. exists [].
    split; [ reflexivity | split; [ split; [ constructor | exact I ] | reflexivity ] ].
Qed.

Lemma get_wf (d : dict) (k : string) (default : json) :
  wf_json (JDict d) -> wf_json default -> wf_json (get d k default).
Proof.
  intros Hd Hdef. apply wf_json_dict in Hd as [_ Hd]. unfold get.
  induction Hd as [ | [k' v] d Hv _ IH ]; simpl; [ exact Hdef | ].
  destruct (String.eqb k k'); [ exact Hv | exact IH ].
Qed.

Lemma set_loaded_wf (self : TaskManager) (d : dict) :
  wf_json (JDict d) -> wf_json (saved_state (set_loaded self d)).
Proof.
  intros Hd. apply wf_saved_state; cbn [set_loaded stored_info final_result
    current_tasks completed_tasks]; apply get_wf; auto; try exact I;
    apply wf_json_dict; split; constructor.
Qed.

Lemma result_file_nonempty (goal : string) : result_file goal <> "".
Proof. unfold result_file. destruct (replace " " "_" goal); discriminate. Qed.

Lemma save_to_file_ok (goal : string) (result : json) (w : world) :
  denied (files w) (result_file goal) = None ->
  save_to_file goal result w =
  Ok tt {| files := <[result_file goal := json_dumps result]> (files w);
           trace := trace w ++
                    [Stdout ("saving final result to " +:+ result_file goal)] |}.
Proof.
  intros Hd. unfold save_to_file, bind, print, emit. fold (result_file goal).
  rewrite write_json_ok; [ reflexivity | apply result_file_nonempty | exact Hd ].
Qed.

Lemma save_to_file_denied (goal : string) (result : json) (w : world) (e : exn) :
  denied (files w) (result_file goal) = Some e ->
  save_to_file goal result w =
  Raise e {| files := files w;
             trace := trace w ++
                      [Stdout ("saving final result to " +:+ result_file goal)] |}.
Proof.
  intros Hd. unfold save_to_file, bind, print, emit. fold (result_file goal).
  rewrite (write_json_denied _ _ _ e);
    [ reflexivity | apply result_file_nonempty | exact Hd ].
Qed.


Lemma convert_as_map (objs : list pyobj) :
  convert_langchain_tools objs =
  map (fun t => [("name", name t); ("description", description t)])
      (omap (fun o => match o with Tool t => Some t | Other _ => None end) objs).
Proof.
  induction objs as [ | [t | v] objs IH ]; simpl; [ reflexivity | | exact IH ].
  now rewrite IH.
Qed.

End TMMore.

Module TMExtras.
Import TM JsonFacts TMFacts JsonMore Consts TMMore.

(** X1. A state file that holds JSON other than an object (a list, a
    number, a string, null): [_load_persist] announces the load and then
    raises [AttributeError] at [saved.get]; no file is changed, and
    construction with that path raises the same way. *)
Theorem load_non_object_raises
    (self : TaskManager) (w : world) (path text : string) (v : json)
    (goal : string) (tools0 : list descriptor) (verbose0 : bool)
    (current_tasks0 final_result0 : json) (allow : bool) (completed_tasks0 : json)
    (confirm : bool) :
  persist self = Some path -> path <> "" -> files w !! path = Some text ->
  json_loads text = Some v -> (forall d, v <> JDict d) ->
  let w' := {| files := files w;
               trace := trace w ++
                        [Output ("[system] Loaded stored info from: " +:+ path)] |} in
  _load_persist self w = Raise AttributeError w' /\
  __init__ goal tools0 verbose0 current_tasks0 final_result0 allow
           completed_tasks0 (Some path) confirm w = Raise AttributeError w'.
Proof.
  intros Hp Hne Hf Hj Hv w'. split.
  - apply (load_persist_other self w path text v); assumption.
  - destruct (init_with_path goal tools0 verbose0 current_tasks0 final_result0 allow
                completed_tasks0 path confirm w Hne) as (self0 & Hp0 & _ & _ & _ & _ & _ & _ & ->).
    rewrite (load_persist_other self0 w path text v); auto.
Qed.


(** X3. [_load_persist] never writes: however it ends, every file is as
    it was and at most one line went to the output; when it ends
    normally exactly one line did, and the goal, the tools, the flags,
    the path, the tool listing and the completion flag of the manager
    are unchanged. *)
Theorem load_persist_frame (self : TaskManager) (w : world) :
  files (world_of (_load_persist self w)) = files w /\
  at_most_one_output (trace w) (trace (world_of (_load_persist self w))) /\
  forall self' w',
    _load_persist self w = Ok self' w' ->
    same_settings self' self /\ exists line, trace w' = trace w ++ [Output line].
Proof.
  destruct (load_persist_effect self w) as (Hfiles & Htrace & Hok).
  split; [ exact Hfiles | ]. split; [ exact Htrace | ].
  intros self' w' H. exact (Hok self' w' H).
Qed.

(** X4. [_load_persist] reads the four keys and nothing else: two state
    files whose objects agree on "stored_info", "final_result",
    "current_tasks" and "completed_tasks" load to the same manager,
    whatever other keys they hold. *)
Theorem load_reads_four_keys
    (self : TaskManager) (w1 w2 : world) (path text1 text2 : string) (d1 d2 : dict) :
  persist self = Some path ->
  files w1 !! path = Some text1 -> json_loads text1 = Some (JDict d1) ->
  files w2 !! path = Some text2 -> json_loads text2 = Some (JDict d2) ->
  (forall k, k ∈ state_keys -> dict_get k d1 = dict_get k d2) ->
  exists loaded w1' w2',
    _load_persist self w1 = Ok loaded w1' /\
    _load_persist self w2 = Ok loaded w2'.
Proof.
  intros Hp Hf1 Hj1 Hf2 Hj2 Hk.
  rewrite (load_persist_present self w1 path text1 d1 Hp Hf1 Hj1).
  rewrite (load_persist_present self w2 path text2 d2 Hp Hf2 Hj2).
  do 3 eexists. split; [ reflexivity | ]. f_equal.
  unfold set_loaded, get.
  rewrite <- (Hk "stored_info"), <- (Hk "final_result"),
          <- (Hk "current_tasks"), <- (Hk "completed_tasks");
    [ reflexivity | .. ]; unfold state_keys; set_solver.
Qed.

(** X5. Loading is idempotent: a manager that was just loaded, loaded
    again from the same files, is the same manager. *)
Theorem load_persist_idempotent (self loaded : TaskManager) (w w' : world) :
  _load_persist self w = Ok loaded w' ->
  exists w'', _load_persist loaded w' = Ok loaded w''.
Proof.
  unfold _load_persist at 1. unfold bind, path_exists, read_json, output_func, emit, ret, raise.
  destruct (persist self) as [path | ] eqn:Hp; [ | discriminate ].
  destruct (files w !! path) as [text | ] eqn:Hf.
  - rewrite bool_decide_eq_true_2 by eauto. rewrite Hf.
    destruct (json_loads text) as [[ | | | | | d] | ] eqn:Hj; try discriminate.
    intros [= <- <-].
    rewrite (load_persist_present (set_loaded self d) _ path text d); eauto.
  - rewrite bool_decide_eq_false_2 by (intros [x Hx]; discriminate).
    intros [= <- <-].
    rewrite (load_persist_missing (set_loaded self []) _ path); eauto.
Qed.

(** X6. [_save_persist] overwrites the whole file: where the path can
    be opened for writing, saving one manager and then another to the
    same path leaves the files exactly as saving the second alone;
    nothing of the first document remains. *)
Theorem save_persist_overwrites (self1 self2 : TaskManager) (w : world) (path : string) :
  persist self1 = Some path -> persist self2 = Some path -> path <> "" ->
  denied (files w) path = None ->
  exists w1 w12 w2,
    _save_persist self1 w = Ok tt w1 /\
    _save_persist self2 w1 = Ok tt w12 /\
    _save_persist self2 w = Ok tt w2 /\
    files w12 = files w2.
Proof.
  intros H1 H2 Hne Hd. do 3 eexists.
  split; [ apply (save_persist_ok self1 w path H1 Hne Hd) | ].
  split; [ apply (save_persist_ok self2 _ path H2 Hne); exact Hd | ].
  split; [ apply (save_persist_ok self2 w path H2 Hne Hd) | ].
  cbn [files]. apply fs_insert_insert_eq.
Qed.

(** X7. Without a usable path [_save_persist] raises and changes
    nothing: [TypeError] when the path is [None], [FileNotFoundError]
    when it is the empty string.  A manager constructed with such a path
    is built without any load, in the world as it was, and cannot be
    saved. *)
Theorem save_persist_without_path
    (self : TaskManager) (w : world)
    (goal : string) (tools0 : list descriptor) (verbose0 : bool)
    (current_tasks0 final_result0 : json) (allow : bool) (completed_tasks0 : json)
    (confirm : bool) :
  persist_set (persist self) = false ->
  let e := match persist self with None => TypeError | Some _ => FileNotFoundError end in
  _save_persist self w = Raise e w /\
  exists tm,
    __init__ goal tools0 verbose0 current_tasks0 final_result0 allow
             completed_tasks0 (persist self) confirm w = Ok tm w /\
    _save_persist tm w = Raise e w.
Proof.
  intros Hp e. subst e. unfold __init__, bind. rewrite Hp. cbn [ret].
  assert (Hsave : forall tm, persist tm = persist self ->
            _save_persist tm w =
            Raise match persist self with None => TypeError | Some _ => FileNotFoundError end w).
  { intros tm Htm. unfold _save_persist, bind, write_json, raise. rewrite Htm.
    destruct (persist self) as [path | ]; [ | reflexivity ].
    cbn [persist_set] in Hp. apply negb_false_iff in Hp. now rewrite Hp. }
  split; [ apply Hsave; reflexivity | ].
  eexists. split; [ reflexivity | apply Hsave; reflexivity ].
Qed.

(** X8. Construction never writes: however [__init__] ends, every file
    is as it was and at most one line went to the output (none when no
    path is set).  When it ends normally the manager has the goal, tools,
    flags and path it was given, its completion flag is false, and its
    tool listing is the rendering of the tools it was given. *)
Theorem init_frame
    (goal : string) (tools0 : list descriptor) (verbose0 : bool)
    (current_tasks0 final_result0 : json) (allow : bool) (completed_tasks0 : json)
    (persist0 : option string) (confirm : bool) (w : world) :
  let r := __init__ goal tools0 verbose0 current_tasks0 final_result0 allow
                    completed_tasks0 persist0 confirm w in
  files (world_of r) = files w /\
  at_most_one_output (trace w) (trace (world_of r)) /\
  (persist_set persist0 = false -> world_of r = w) /\
  forall tm w',
    r = Ok tm w' ->
    final_goal tm = goal /\ tools tm = tools0 /\ verbose tm = verbose0 /\
    allow_repeat_tasks tm = allow /\ persist tm = persist0 /\
    confirm_tool tm = confirm /\ goal_completed tm = false /\
    tools_str tm = _make_tools_str tools0.
Proof.
  intros r. subst r. destruct (persist_set persist0) eqn:Hp.
  - destruct persist0 as [path | ]; [ | discriminate ].
    assert (Hne : path <> "").
    { cbn [persist_set] in Hp. apply negb_true_iff in Hp. now apply String.eqb_neq. }
    destruct (init_with_path goal tools0 verbose0 current_tasks0 final_result0 allow
                completed_tasks0 path confirm w Hne)
      as (self0 & Hp0 & Ht & Hg & Hv & Ha & Hc & Hd & ->).
    destruct (load_persist_effect self0 w) as (Hfiles & Htrace & Hok).
    destruct (_load_persist self0 w) as [self w1 | e w1]; cbn [world_of] in *.
    + split; [ exact Hfiles | ]. split; [ exact Htrace | ].
      split; [ intros; discriminate | ].
      intros tm w' [= <- <-]. cbn.
      destruct (Hok self w1 eq_refl) as ((H1 & H2 & H3 & H4 & H5 & H6 & H7 & H8) & _).
      repeat split; congruence.
    + split; [ exact Hfiles | ]. split; [ exact Htrace | ].
      split; [ intros; discriminate | intros tm w' H; discriminate H ].
  - unfold __init__, bind. rewrite Hp. cbn [world_of ret].
    split; [ reflexivity | ]. split; [ now left | ].
    split; [ intros _; reflexivity | ].
    intros tm w' [= <- <-]. cbn. repeat split.
Qed.


(** X10. Load, save, load is stable: when [_load_persist] ends normally
    and the path can be opened for writing, saving the loaded manager
    succeeds and loading it again gives the same manager, whether the
    file held all four keys, some of them, other keys, or did not
    exist. *)
Theorem load_save_load_stable
    (self loaded : TaskManager) (w w1 : world) (path : string) :
  persist self = Some path -> path <> "" -> denied (files w) path = None ->
  _load_persist self w = Ok loaded w1 ->
  exists w2 w3,
    _save_persist loaded w1 = Ok tt w2 /\
    _load_persist loaded w2 = Ok loaded w3.
Proof.
  intros Hp Hne Hden Hload.
  destruct (load_persist_ok_inv self loaded w w1 Hload) as (d & -> & Hd & Hfs).
  assert (Hp' : persist (set_loaded self d) = Some path) by exact Hp.
  rewrite (save_persist_ok _ w1 path Hp' Hne) by (rewrite Hfs; exact Hden).
  do 2 eexists.
  split; [ reflexivity | ].
  rewrite (load_persist_present (set_loaded self d) _ path
             (json_dumps (saved_state (set_loaded self d)))
             [("stored_info", stored_info (set_loaded self d));
              ("final_result", final_result (set_loaded self d));
              ("current_tasks", current_tasks (set_loaded self d));
              ("completed_tasks", completed_tasks (set_loaded self d))]).
  - reflexivity.
  - exact Hp'.
  - cbn [files]. apply fs_lookup_insert_eq.
  - apply json_loads_dumps, set_loaded_wf, Hd.
Qed.

(** X11. The tool listing of a list made of two non-empty parts is the
    listing of the first part, the separator (five dashes and a newline,
    with no newline before the dashes), and the listing of the second;
    the listing of no tools is the empty string, and a descriptor with
    no entries contributes an empty rendering. *)
Theorem make_tools_str_app (a b : list descriptor) :
  a <> [] -> b <> [] ->
  _make_tools_str (a ++ b) = _make_tools_str a +:+ tools_sep +:+ _make_tools_str b /\
  _make_tools_str [] = "" /\
  _make_tools_str (a ++ [[]]) = _make_tools_str a +:+ tools_sep.
Proof.
  intros Ha Hb. unfold _make_tools_str, tools_sep.
  assert (Hmap : forall (f : descriptor -> string) (l : list descriptor),
             l <> [] -> map f l <> []) by (intros f [ | x l ]; simpl; congruence).
  split; [ | split; [ reflexivity | ] ].
  - rewrite map_app. apply join_app; apply Hmap; assumption.
  - rewrite map_app, join_app by (try apply Hmap; try discriminate; assumption).
    change (join _ (map _ [[]])) with "". now rewrite append_nil_r.
Qed.

(** X12. Converting a list of objects and rendering the result lists
    exactly the [BaseTool] instances, each as its name line and its
    description line, in order; an object that is not a [BaseTool]
    leaves no trace in the listing, wherever it stands. *)
Theorem tools_listing_of_objects (objs : list pyobj) :
  _make_tools_str (convert_langchain_tools objs) =
    join tools_sep
      (map tool_lines
           (omap (fun o => match o with Tool t => Some t | Other _ => None end) objs)) /\
  forall before v after,
    objs = before ++ Other v :: after ->
    _make_tools_str (convert_langchain_tools objs) =
    _make_tools_str (convert_langchain_tools (before ++ after)).
Proof.
  split.
  - rewrite convert_as_map. unfold _make_tools_str, tools_sep. rewrite map_map.
    reflexivity.
  - intros before v after ->. f_equal. rewrite !convert_as_map. f_equal.
    rewrite !omap_app. reflexivity.
Qed.

(** X13. [convert_langchain_tools] never returns more dicts than it was
    given objects; it returns as many exactly when every object is a
    [BaseTool], and none exactly when no object is. *)
Theorem convert_langchain_tools_length (objs : list pyobj) :
  length (convert_langchain_tools objs) <= length objs /\
  (length (convert_langchain_tools objs) = length objs <->
   forallb is_tool objs = true) /\
  (convert_langchain_tools objs = [] <-> existsb is_tool objs = false).
Proof.
  assert (Hle : forall l, length (convert_langchain_tools l) <= length l).
  { induction l as [ | [t | v] l IH ]; simpl; lia. }
  split; [ apply Hle | ]. split.
  - induction objs as [ | [t | v] objs IH ]; simpl.
    + split; reflexivity.
    + rewrite <- IH. split; intros H; lia.
    + split; [ | discriminate ]. intros H. pose proof (Hle objs). lia.
  - induction objs as [ | [t | v] objs IH ]; simpl.
    + split; reflexivity.
    + split; discriminate.
    + exact IH.
Qed.


(** X15. Goals that differ only by spaces against underscores share one
    result file: where that file can be opened for writing, saving for
    the first and then for the second leaves the files as saving for the
    second alone, so the first result is lost.  A goal and the same goal
    with its spaces already replaced always share their file. *)
Theorem save_to_file_collision (g1 g2 : string) (r1 r2 : json) (w : world) :
  replace " " "_" g1 = replace " " "_" g2 ->
  result_file g1 = result_file g2 /\
  (denied (files w) (result_file g2) = None ->
   exists w12 w2,
     bind (save_to_file g1 r1) (fun _ => save_to_file g2 r2) w = Ok tt w12 /\
     save_to_file g2 r2 w = Ok tt w2 /\
     files w12 = files w2) /\
  result_file (replace " " "_" g1) = result_file g2.
Proof.
  intros Heq.
  assert (Hfn : result_file g1 = result_file g2)
    by (unfold result_file; now rewrite Heq).
  split; [ exact Hfn | split ].
  - intros Hden. unfold bind.
    rewrite (save_to_file_ok g1 r1 w) by (rewrite Hfn; exact Hden).
    rewrite (save_to_file_ok g2 r2 _) by exact Hden.
    rewrite (save_to_file_ok g2 r2 w Hden). do 2 eexists.
    split; [ reflexivity | ]. split; [ reflexivity | ]. cbn [files].
    rewrite Hfn. apply fs_insert_insert_eq.
  - unfold result_file. now rewrite replace_idempotent, Heq.
Qed.



(** X18. [GOOD_JSON_EXAMPLE], the example of valid JSON that the class
    keeps for the repair prompt, is not valid JSON: the literal is not a
    raw string, so its four escaped quotes reach the string as bare
    quotes and [json.loads] rejects it.  With the backslashes kept, as
    the text stands in the source file, it parses to the intended
    object, whose second task and thoughts hold the quoted file name. *)
Theorem good_json_example_does_not_parse :
  json_loads GOOD_JSON_EXAMPLE = None /\
  json_loads GOOD_JSON_EXAMPLE_as_written =
  Some (JDict
    [("current_tasks",
      JList [JStr "Research Amjad Masad's career and background.";
             JStr ("Create a CSV called " +:+ String dquote "career.csv" +:+
                   String dquote " and write his careers to it.")]);
     ("stored_info", JDict [("username", JStr "amasad")]);
     ("thoughts",
      JStr ("I will research his career and background, and then save the results to "
            +:+ String dquote "career.csv" +:+ String dquote "."))]).
Proof. split; vm_compute; reflexivity. Qed.

(** ** The statements at sample inputs *)

Import Examples Samples.

Lemma load_non_object_raises_witness :
  _load_persist colors_manager list_file =
  Raise AttributeError
        {| files := files list_file;
           trace := [Output "[system] Loaded stored info from: state.json"] |}.
Proof.
  apply (load_non_object_raises colors_manager list_file "state.json" "[1, 2]"
           (JList [JInt 1; JInt 2]) "list three colors" [] true JNull JNull true JNull false);
    [ reflexivity | discriminate | reflexivity | vm_compute; reflexivity
    | intros d; discriminate ].
Defined.


Lemma load_reads_four_keys_witness :
  exists loaded w1' w2',
    _load_persist colors_manager one_file = Ok loaded w1' /\
    _load_persist colors_manager annotated_file = Ok loaded w2'.
Proof.
  apply (load_reads_four_keys colors_manager one_file annotated_file "state.json"
           partial_state annotated_state
           [("current_tasks", JList [JStr "a"]); ("stored_info", JDict [("k", JInt 1)])]
           [("comment", JStr "written by hand");
            ("current_tasks", JList [JStr "a"]); ("stored_info", JDict [("k", JInt 1)])]);
    try reflexivity; try (vm_compute; reflexivity).
  intros k Hk. unfold state_keys in Hk.
  repeat (apply elem_of_cons in Hk as [-> | Hk]; [ reflexivity | ]).
  inversion Hk.
Defined.

Lemma load_persist_idempotent_witness :
  exists w'',
    _load_persist (set_loaded colors_manager
                     [("current_tasks", JList [JStr "a"]);
                      ("stored_info", JDict [("k", JInt 1)])])
                  {| files := files one_file;
                     trace := [Output "[system] Loaded stored info from: state.json"] |}
    = Ok (set_loaded colors_manager
            [("current_tasks", JList [JStr "a"]);
             ("stored_info", JDict [("k", JInt 1)])]) w''.
Proof.
  apply (load_persist_idempotent colors_manager _ one_file). vm_compute. reflexivity.
Defined.

Lemma save_persist_overwrites_witness :
  exists w1 w12 w2,
    _save_persist colors_manager no_files = Ok tt w1 /\
    _save_persist finished_manager w1 = Ok tt w12 /\
    _save_persist finished_manager no_files = Ok tt w2 /\
    files w12 = files w2.
Proof.
  apply (save_persist_overwrites colors_manager finished_manager no_files "state.json");
    [ reflexivity | reflexivity | discriminate | reflexivity ].
Defined.

Lemma save_persist_without_path_witness :
  _save_persist (manager [] [] false) no_files = Raise TypeError no_files.
Proof.
  apply (save_persist_without_path (manager [] [] false) no_files
           "list three colors" [] true JNull JNull true JNull false).
  reflexivity.
Defined.


Lemma load_save_load_stable_witness :
  exists w2 w3,
    _save_persist (set_loaded colors_manager
                     [("current_tasks", JList [JStr "a"]);
                      ("stored_info", JDict [("k", JInt 1)])])
                  {| files := files one_file;
                     trace := [Output "[system] Loaded stored info from: state.json"] |}
    = Ok tt w2 /\
    _load_persist (set_loaded colors_manager
                     [("current_tasks", JList [JStr "a"]);
                      ("stored_info", JDict [("k", JInt 1)])]) w2
    = Ok (set_loaded colors_manager
            [("current_tasks", JList [JStr "a"]);
             ("stored_info", JDict [("k", JInt 1)])]) w3.
Proof.
  apply (load_save_load_stable colors_manager _ one_file _ "state.json");
    [ reflexivity | discriminate | reflexivity | vm_compute; reflexivity ].
Defined.

Lemma make_tools_str_app_witness :
  _make_tools_str ([[("name", "search"); ("description", "web search")]] ++
                   [[("name", "calc"); ("description", "arithmetic")]]) =
  _make_tools_str [[("name", "search"); ("description", "web search")]] +:+ tools_sep +:+
  _make_tools_str [[("name", "calc"); ("description", "arithmetic")]].
Proof.
  apply (make_tools_str_app [[("name", "search"); ("description", "web search")]]
           [[("name", "calc"); ("description", "arithmetic")]]); discriminate.
Defined.


Lemma save_to_file_collision_witness :
  exists w12 w2,
    bind (save_to_file "list three colors" (JInt 1))
         (fun _ => save_to_file "list_three colors" (JInt 2)) no_files = Ok tt w12 /\
    save_to_file "list_three colors" (JInt 2) no_files = Ok tt w2 /\
    files w12 = files w2.
Proof.
  apply (save_to_file_collision "list three colors" "list_three colors"
           (JInt 1) (JInt 2) no_files); reflexivity.
Defined.



End TMExtras.
